(** * rt1_pytorch: data harmonisation layer and training loop

    A shallow embedding of [src/data/step_map_fn.py],
    [src/data/multiple_dataset.py] and [src/train.py].

    - TensorFlow tensors are modelled the way [tf.data] traces a map
      function: a static shape, a dtype and the symbolic op that produces
      the value.
    - Python dictionaries with string keys are [gmap string _].
    - Python exceptions are [None] (or an explicit error constructor). *)

From stdpp Require Import gmap strings list fin_maps pretty sorting.
From Stdlib Require Import ZArith Lia Ascii.

Local Open Scope string_scope.
Local Open Scope nat_scope.
Local Open Scope list_scope.

(** ** Python exceptions *)

Inductive exception : Set :=
| AssertionError | StopIteration | IndexError | KeyError | ZeroDivisionError
| FileNotFoundError.

Inductive result (A : Type) : Type :=
| Ok (a : A)
| Raise (e : exception).

Arguments Ok {A} a.
Arguments Raise {A} e.

#[global] Instance result_ret : MRet result := λ A a, Ok a.
#[global] Instance result_bind : MBind result := λ A B f m,
  match m with
  | Ok a => f a
  | Raise e => Raise e
  end.

(** [o] or raise [e] when there is nothing. *)
Definition or_raise {A} (o : option A) (e : exception) : result A :=
  match o with
  | Some a => Ok a
  | None => Raise e
  end.

(** ** TensorFlow: the ops used by the step mappers *)

Module tf.

Inductive DType : Set := float32 | float64 | int32 | int64 | uint8 | bool_.

#[global] Instance DType_eq_dec : EqDecision DType.
Proof. solve_decision. Defined.

(** The symbolic value of a tensor: the op graph rooted at it. *)
Inductive Op : Set :=
| Source (name : string)
| Cast (x : Op) (d : DType)
| ResizeWithPad (x : Op) (target_height target_width : nat)
| Transpose (x : Op) (perm : list nat)
| Reshape (x : Op) (new_shape : list nat).

Record Tensor : Set := mkTensor { shape : list nat; dtype : DType; op : Op }.

Definition num_elements (s : list nat) : nat := foldr Nat.mul 1 s.

(** [tf.cast(x, dtype)]: same shape, new dtype. *)
Definition cast (x : Tensor) (d : DType) : Tensor :=
  {| shape := shape x; dtype := d; op := Cast (op x) d |}.

(** [tf.image.resize_with_pad(image, target_height, target_width)] is
    TensorFlow's own and is not modelled: the mappers take it as a
    function that returns a tensor or raises ([None]).  When it accepts
    an image is TensorFlow's business (it refuses, among others, an
    image with an empty inner dimension and a boolean image).  What the
    mappers rely on is the shape of what it returns: a 3-D image
    [height, width, channels] comes back as
    [target_height, target_width, channels], a 4-D batch keeps its
    leading dimension, and no other rank is accepted. *)
Definition resized_shape (sh : list nat) (target_height target_width : nat)
    : option (list nat) :=
  match sh with
  | [_; _; c] => Some [target_height; target_width; c]
  | [b; _; _; c] => Some [b; target_height; target_width; c]
  | _ => None
  end.

Definition resize_with_pad_spec
    (resize_with_pad : Tensor → nat → nat → option Tensor) : Prop :=
  ∀ image target_height target_width resized,
    resize_with_pad image target_height target_width = Some resized →
    resized_shape (shape image) target_height target_width =
      Some (shape resized).

(** [tf.transpose(a, perm)]: [perm] must be a permutation of the axes;
    axis [i] of the result is axis [perm[i]] of the input. *)
Definition valid_perm (rank : nat) (perm : list nat) : Prop :=
  length perm = rank ∧ NoDup perm ∧ Forall (λ i, i < rank) perm.

Definition transpose (a : Tensor) (perm : list nat) : option Tensor :=
  if decide (valid_perm (length (shape a)) perm)
  then Some {| shape := (λ i, nth i (shape a) 0) <$> perm;
               dtype := dtype a; op := Transpose (op a) perm |}
  else None.

(** [tf.reshape(tensor, shape)]: the element count must be preserved;
    the dtype is kept. *)
Definition reshape (t : Tensor) (new_shape : list nat) : option Tensor :=
  if decide (num_elements new_shape = num_elements (shape t))
  then Some {| shape := new_shape; dtype := dtype t;
               op := Reshape (op t) new_shape |}
  else None.

End tf.

(** ** Steps: the nested dictionaries handled by the mappers *)

Inductive Value (T : Type) : Type :=
| Leaf (t : T)
| Nested (d : gmap string T).

Arguments Leaf {T} t.
Arguments Nested {T} d.

Abbreviation Step := (gmap string (Value tf.Tensor)).

(** [step[k]] where the entry must be a dictionary. *)
Definition subdict (step : Step) (k : string) : option (gmap string tf.Tensor) :=
  match step !! k with
  | Some (Nested d) => Some d
  | _ => None
  end.

(** [step[k1][k2]] *)
Definition getitem2 (step : Step) (k1 k2 : string) : option tf.Tensor :=
  d ← subdict step k1; d !! k2.

(** ** src/data/step_map_fn.py *)

Definition TARGET_WIDTH : nat := 160.
Definition TARGET_HEIGHT : nat := 128.

(** The four sources that have a step mapper. *)
Inductive source : Set := jaco | berkeley_cable_routing | bridge | toto.

(** The native action fields each mapper routes to [first_three],
    [middle_three] and [final_one]. *)
Definition action_fields (s : source) : string * string * string :=
  match s with
  | jaco => ("world_vector", "terminate_episode", "gripper_closedness_action")
  | berkeley_cable_routing => ("world_vector", "rotation_delta", "terminate_episode")
  | bridge | toto => ("world_vector", "rotation_delta", "open_gripper")
  end.

Definition first_three_field (s : source) : string := (action_fields s).1.1.
Definition middle_three_field (s : source) : string := (action_fields s).1.2.
Definition final_one_field (s : source) : string := (action_fields s).2.

Section StepMapFn.

(** [tf.image.resize_with_pad], with its arguments in TensorFlow's
    order: image, target height, target width. *)
Variable tf_image_resize_with_pad : tf.Tensor → nat → nat → option tf.Tensor.

(** Lines 13-15 (and the same lines of the three other mappers). *)
Definition map_image (image : tf.Tensor) : option tf.Tensor :=
  resized ← tf_image_resize_with_pad image TARGET_HEIGHT TARGET_WIDTH;
  tf.transpose (tf.cast resized tf.uint8) [2; 0; 1].

Definition transformed_step
    (image nle first_three middle_three final_one : tf.Tensor)
    (is_first is_last is_terminal : Value tf.Tensor) : Step :=
  <["is_terminal" := is_terminal]>
  (<["is_last" := is_last]>
  (<["is_first" := is_first]>
  (<["action" := Nested (<["final_one" := final_one]>
                         (<["middle_three" := middle_three]>
                         (<["first_three" := first_three]> ∅)))]>
  (<["observation" := Nested (<["natural_language_embedding" := nle]>
                              (<["image" := image]> ∅))]> ∅)))).

Definition jaco_step_map_fn (step : Step) : option Step :=
  image0 ← getitem2 step "observation" "image";
  image ← map_image image0;
  nle ← getitem2 step "observation" "natural_language_embedding";
  world_vector ← getitem2 step "action" "world_vector";
  terminate_episode ← getitem2 step "action" "terminate_episode";
  gripper_closedness_action ← getitem2 step "action" "gripper_closedness_action";
  is_first ← step !! "is_first";
  is_last ← step !! "is_last";
  is_terminal ← step !! "is_terminal";
  Some (transformed_step image nle
          (tf.cast world_vector tf.float32)
          (tf.cast terminate_episode tf.float32)
          (tf.cast gripper_closedness_action tf.float32)
          is_first is_last is_terminal).

Definition berkeley_cable_routing_step_map_fn (step : Step) : option Step :=
  image0 ← getitem2 step "observation" "image";
  image ← map_image image0;
  nle ← getitem2 step "observation" "natural_language_embedding";
  world_vector ← getitem2 step "action" "world_vector";
  rotation_delta ← getitem2 step "action" "rotation_delta";
  terminate_episode ← getitem2 step "action" "terminate_episode";
  final_one ← tf.reshape terminate_episode [1];
  is_first ← step !! "is_first";
  is_last ← step !! "is_last";
  is_terminal ← step !! "is_terminal";
  Some (transformed_step image nle
          (tf.cast world_vector tf.float32)
          (tf.cast rotation_delta tf.float32)
          final_one
          is_first is_last is_terminal).

Definition bridge_step_map_fn (step : Step) : option Step :=
  image0 ← getitem2 step "observation" "image";
  image ← map_image image0;
  nle ← getitem2 step "observation" "natural_language_embedding";
  world_vector ← getitem2 step "action" "world_vector";
  rotation_delta ← getitem2 step "action" "rotation_delta";
  open_gripper ← getitem2 step "action" "open_gripper";
  is_first ← step !! "is_first";
  is_last ← step !! "is_last";
  is_terminal ← step !! "is_terminal";
  Some (transformed_step image nle
          (tf.cast world_vector tf.float32)
          (tf.cast rotation_delta tf.float32)
          (tf.cast open_gripper tf.float32)
          is_first is_last is_terminal).

Definition toto_step_map_fn (step : Step) : option Step :=
  image0 ← getitem2 step "observation" "image";
  image ← map_image image0;
  nle ← getitem2 step "observation" "natural_language_embedding";
  world_vector ← getitem2 step "action" "world_vector";
  rotation_delta ← getitem2 step "action" "rotation_delta";
  open_gripper ← getitem2 step "action" "open_gripper";
  is_first ← step !! "is_first";
  is_last ← step !! "is_last";
  is_terminal ← step !! "is_terminal";
  Some (transformed_step image nle
          (tf.cast world_vector tf.float32)
          (tf.cast rotation_delta tf.float32)
          (tf.cast open_gripper tf.float32)
          is_first is_last is_terminal).

Definition step_map_fn (s : source) : Step → option Step :=
  match s with
  | jaco => jaco_step_map_fn
  | berkeley_cable_routing => berkeley_cable_routing_step_map_fn
  | bridge => bridge_step_map_fn
  | toto => toto_step_map_fn
  end.

(** What a mapper needs of a step to return: a 3-D image that
    [tf.image.resize_with_pad] accepts, the embedding, its three
    designated action fields (for the Berkeley mapper a
    [terminate_episode] of one element, which line 45 reshapes) and the
    three episode flags. *)
Record native_step (s : source) (step : Step) : Prop := {
  ns_image : ∃ t H W C resized,
      getitem2 step "observation" "image" = Some t ∧ tf.shape t = [H; W; C] ∧
      tf_image_resize_with_pad t TARGET_HEIGHT TARGET_WIDTH = Some resized;
  ns_embedding : is_Some (getitem2 step "observation" "natural_language_embedding");
  ns_first : is_Some (getitem2 step "action" (first_three_field s));
  ns_middle : is_Some (getitem2 step "action" (middle_three_field s));
  ns_final : ∃ t, getitem2 step "action" (final_one_field s) = Some t ∧
                  (s = berkeley_cable_routing → tf.num_elements (tf.shape t) = 1);
  ns_is_first : is_Some (step !! "is_first");
  ns_is_last : is_Some (step !! "is_last");
  ns_is_terminal : is_Some (step !! "is_terminal")
}.

End StepMapFn.

(** The schema of a tensor and of a dictionary of tensors. *)
Definition tensor_spec (t : tf.Tensor) : list nat * tf.DType :=
  (tf.shape t, tf.dtype t).

Definition action_spec (step : Step) : option (gmap string (list nat * tf.DType)) :=
  match subdict step "action" with
  | Some d => Some (tensor_spec <$> d)
  | None => None
  end.

(** The action schema with [first_three] and [middle_three] float32 of
    shape (3,) and a [final_one] of the given shape and dtype. *)
Definition mapped_action_spec (final_one_shape : list nat) (d : tf.DType)
    : gmap string (list nat * tf.DType) :=
  <["final_one" := (final_one_shape, d)]>
  (<["middle_three" := ([3], tf.float32)]>
  (<["first_three" := ([3], tf.float32)]> ∅)).

Definition canonical_action_spec : gmap string (list nat * tf.DType) :=
  <["final_one" := ([1], tf.float32)]>
  (<["middle_three" := ([3], tf.float32)]>
  (<["first_three" := ([3], tf.float32)]> ∅)).

(** The shape of the mapped [final_one]: the Berkeley mapper reshapes to
    (1,) (line 45), the others cast and so keep the shape of the native
    field (lines 23, 69, 94). *)
Definition final_one_shape (s : source) (t : tf.Tensor) : list nat :=
  match s with
  | berkeley_cable_routing => [1]
  | _ => tf.shape t
  end.

(** The action schema C1 claims for a mapped step: the mapper returns and
    the three groups are float32 of shapes (3,), (3,), (1,). *)
Definition has_canonical_action_spec
    (tf_image_resize_with_pad : tf.Tensor → nat → nat → option tf.Tensor)
    (s : source) (step : Step) : Prop :=
  ∃ out, step_map_fn tf_image_resize_with_pad s step = Some out ∧
         action_spec out = Some canonical_action_spec.

(** *** Sample steps *)

Definition source_tensor (name : string) (sh : list nat) (d : tf.DType) : tf.Tensor :=
  {| tf.shape := sh; tf.dtype := d; tf.op := tf.Source name |}.

Definition sample_image : tf.Tensor := source_tensor "image" [480; 640; 3] tf.uint8.

Definition sample_step (action : gmap string tf.Tensor) : Step :=
  <["is_terminal" := Leaf (source_tensor "is_terminal" [] tf.bool_)]>
  (<["is_last" := Leaf (source_tensor "is_last" [] tf.bool_)]>
  (<["is_first" := Leaf (source_tensor "is_first" [] tf.bool_)]>
  (<["action" := Nested action]>
  (<["observation" :=
       Nested (<["natural_language_embedding" :=
                   source_tensor "natural_language_embedding" [512] tf.float32]>
               (<["image" := sample_image]> ∅))]> ∅)))).

Definition sample_bridge_step : Step :=
  sample_step
    (<["open_gripper" := source_tensor "open_gripper" [1] tf.bool_]>
     (<["rotation_delta" := source_tensor "rotation_delta" [3] tf.float32]>
     (<["world_vector" := source_tensor "world_vector" [3] tf.float32]> ∅))).

(** A stand-in for [tf.image.resize_with_pad] to run the samples with:
    it refuses a rank other than 3 or 4, an empty inner dimension and a
    boolean image, and gives a float32 tensor of the target size. *)
Definition sample_resize_with_pad (image : tf.Tensor)
    (target_height target_width : nat) : option tf.Tensor :=
  if decide (tf.dtype image = tf.bool_) then None
  else
    match tf.shape image with
    | [h; w; c] =>
        if decide (h = 0 ∨ w = 0 ∨ c = 0) then None
        else Some {| tf.shape := [target_height; target_width; c];
                     tf.dtype := tf.float32;
                     tf.op := tf.ResizeWithPad (tf.op image)
                                target_height target_width |}
    | [b; h; w; c] =>
        if decide (h = 0 ∨ w = 0 ∨ c = 0) then None
        else Some {| tf.shape := [b; target_height; target_width; c];
                     tf.dtype := tf.float32;
                     tf.op := tf.ResizeWithPad (tf.op image)
                                target_height target_width |}
    | _ => None
    end.

(** ** src/data/multiple_dataset.py *)

Module CombinedDataset.
Section WithDataLoader.

(** [tf.data] datasets and their iterators, the trajectory transform
  returned with each dataset, the examples drawn from the stream and
  the torch tensors handed to the training loop. *)
Context {Dataset Iterator TensorSpec TorchTensor : Type}.
Context `{EqDecision TensorSpec}.

Record TrajectoryTransform := { expected_tensor_spec : TensorSpec }.

(** [data.data_loader] is imported, not defined, by this module: its
  two functions are parameters.  [build_dataset] is taken to return
  its pair. *)
Variable build_dataset :
string → string → nat → Dataset * TrajectoryTransform.
Variable tf_to_torch : tf.Tensor → TorchTensor.

(** [iter(tf.data.Dataset.sample_from_datasets(datasets))] and [next]
  on the resulting iterator ([None]: StopIteration). *)
Variable sample_from_datasets_iter : list Dataset → Iterator.
Variable next : Iterator → option (Step * Iterator).

Record t := { combined_dataset_it : Iterator }.

Definition builder_dir_list : list string :=
["gs://gresearch/robotics/toto/0.1.0"; "gs://gresearch/robotics/bridge/0.1.0"].
Definition dataset_name_list : list string := ["toto"; "bridge"].

(** Lines 14-19: one [build_dataset] call per builder directory. *)
Fixpoint build_loop (time_sequence_length : nat) (idx : nat)
  (dirs : list string) : result (list (Dataset * TrajectoryTransform)) :=
match dirs with
| [] => Ok []
| builder_dir :: dirs' =>
    dataset_name ← or_raise (dataset_name_list !! idx) IndexError;
    let built := build_dataset dataset_name builder_dir time_sequence_length in
    rest ← build_loop time_sequence_length (S idx) dirs';
    Ok (built :: rest)
end.

(** Lines 21-23: every transform is compared with the first one. *)
Fixpoint assert_loop (template : TrajectoryTransform)
  (transforms : list TrajectoryTransform) : result unit :=
match transforms with
| [] => Ok ()
| dataset_trajectory_transform :: rest =>
    if decide (expected_tensor_spec dataset_trajectory_transform =
               expected_tensor_spec template)
    then assert_loop template rest
    else Raise AssertionError
end.

Definition __init__ (time_sequence_length : nat) : result t :=
built ← build_loop time_sequence_length 0 builder_dir_list;
let trajectory_dataset_list := built.*1 in
let dataset_trajectory_transform_list := built.*2 in
template ← or_raise (dataset_trajectory_transform_list !! 0) IndexError;
_ ← assert_loop template dataset_trajectory_transform_list;
Ok {| combined_dataset_it := sample_from_datasets_iter trajectory_dataset_list |}.


(** Lines 34-39: every tensor of the example, nested or not, goes
  through [tf_to_torch]; the keys are kept. *)
Definition to_torch (example : Step) : gmap string (Value TorchTensor) :=
(λ value, match value with
          | Nested d => Nested (tf_to_torch <$> d)
          | Leaf v => Leaf (tf_to_torch v)
          end) <$> example.

Definition __getitem__ (self : t) (idx : Z)
  : result (gmap string (Value TorchTensor) * t) :=
'(example, it) ← or_raise (next (combined_dataset_it self)) StopIteration;
Ok (to_torch example, {| combined_dataset_it := it |}).

End WithDataLoader.
End CombinedDataset.

(** ** PyTorch tensors: row-major data and the indexing [v[:, idx]] *)

Module torch.
Section Tensor.

Context {A : Type}.

Record Tensor := mkTensor { shape : list nat; data : list A }.

(** A tensor holds as many elements as its shape says. *)
Definition well_formed (v : Tensor) : Prop :=
  length (data v) = foldr Nat.mul 1 (shape v).

(** The row-major offset of a multi-index ([None] when the index has the
    wrong length or is out of bounds). *)
Fixpoint ravel (sh index : list nat) : option nat :=
  match sh, index with
  | [], [] => Some 0
  | d :: sh', i :: index' =>
      if decide (i < d)
      then off ← ravel sh' index'; Some (i * foldr Nat.mul 1 sh' + off)
      else None
  | _, _ => None
  end.

(** [v[i0, i1, ...]] *)
Definition item (v : Tensor) (index : list nat) : option A :=
  off ← ravel (shape v) index; data v !! off.

(** A Python index into an axis of length [dim]: negative indices count
    from the end, anything outside [-dim, dim) is an IndexError. *)
Definition normalize_index (idx : Z) (dim : nat) : option nat :=
  if decide (0 ≤ idx < Z.of_nat dim)%Z then Some (Z.to_nat idx)
  else if decide (- Z.of_nat dim ≤ idx < 0)%Z
       then Some (Z.to_nat (idx + Z.of_nat dim))
  else None.

(** [v[:, idx]]: for every position of the first axis the block at
    position [idx] of the second axis; a tensor of rank below two has too
    many indices. *)
Definition select_dim1 (v : Tensor) (idx : Z) : result Tensor :=
  match shape v with
  | d0 :: d1 :: rest =>
      i ← or_raise (normalize_index idx d1) IndexError;
      let inner := foldr Nat.mul 1 rest in
      Ok {| shape := d0 :: rest;
            data := concat ((λ b, take inner (drop ((b * d1 + i) * inner) (data v)))
                              <$> seq 0 d0) |}
  | _ => Raise IndexError
  end.

End Tensor.
Arguments Tensor A : clear implicits.
End torch.

(** ** os.path.join, str.split and str on integers *)

Definition startswith_sep (s : string) : bool :=
  match s with
  | String c _ => bool_decide (c = "/"%char)
  | EmptyString => false
  end.

Fixpoint endswith_sep (s : string) : bool :=
  match s with
  | EmptyString => false
  | String c EmptyString => bool_decide (c = "/"%char)
  | String _ s' => endswith_sep s'
  end.

(** [os.path.join(a, b)] on POSIX: an absolute [b] replaces [a]; no
    separator is added after an empty [a] or one that ends with it. *)
Definition os_path_join (a b : string) : string :=
  if startswith_sep b then b
  else if bool_decide (a = "") || endswith_sep a then a +:+ b
  else a +:+ "/" +:+ b.

(** [s.split(".")[0]] *)
Fixpoint split_dot_head (s : string) : string :=
  match s with
  | EmptyString => EmptyString
  | String c s' =>
      if bool_decide (c = "."%char) then EmptyString
      else String c (split_dot_head s')
  end.

(** ** src/train.py *)

(** A loop whose body may raise: the first exception ends it. *)
Fixpoint for_loop {S X : Type} (body : S → X → result S) (st : S)
    (xs : list X) : result S :=
  match xs with
  | [] => Ok st
  | x :: xs' => st' ← body st x; for_loop body st' xs'
  end.

(** [range(start, stop)] *)
Definition range (start stop : Z) : list Z := seqZ start (stop - start).

Module Trainer.

(** torch's [state_dict()] / [load_state_dict()] protocol, implemented by
    the network, the optimizer and the scheduler. *)
Class Stateful (X SD : Type) := {
  state_dict : X → SD;
  load_state_dict : X → SD → X
}.

(** The two [torch.distributed.barrier()] calls of the epoch loop. *)
Inductive barrier_point : Set := end_of_epoch | end_of_val.

(** The configuration entries the loop itself reads (the others are
    handed to the collaborators). *)
Record Args : Set := {
  distributed : bool;
  resume : bool;
  resume_from_checkpoint : string;
  epochs : Z;
  val_interval : Z;
  log_dir : string
}.

Record t : Set := {
  args : Args;
  checkpoint_dir : string;
  tensorboard_dir : string;
  train_name : string;
  train_step : nat
}.

(** Lines 492-503; [now] is [str(time.time())].  The directories are
    created on the way, only their names are followed here. *)
Definition make_log_dir (now : string) (log_dir : string)
    : string * (string * string) :=
  let id := split_dot_head now in
  let train_name := id in
  let checkpoint_dir := os_path_join log_dir train_name in
  let tensorboard_dir :=
    os_path_join (os_path_join log_dir "tensorboard_logs") train_name in
  (train_name, (checkpoint_dir, tensorboard_dir)).

(** Lines 46-49 and 81: the fields of the trainer that [train] reads. *)
Definition __init__ (args : Args) (now : string) : t :=
  let '(train_name, (checkpoint_dir, tensorboard_dir)) :=
    make_log_dir now (log_dir args) in
  {| args := args; checkpoint_dir := checkpoint_dir;
     tensorboard_dir := tensorboard_dir; train_name := train_name;
     train_step := 0 |}.

Section WithCollaborators.

Context {Network Optimizer Scheduler : Type}.
Context {NetworkState OptimizerState SchedulerState : Type}.
Context {Batch Float : Type}.
Context `{!Stateful Network NetworkState}.
Context `{!Stateful Optimizer OptimizerState}.
Context `{!Stateful Scheduler SchedulerState}.

Inductive CheckpointValue : Type :=
| NetworkStateDict (sd : NetworkState)
| OptimizerStateDict (sd : OptimizerState)
| SchedulerStateDict (sd : SchedulerState)
| Int (n : Z).

Abbreviation Checkpoint := (gmap string CheckpointValue).

Inductive ScalarValue : Type :=
| FloatValue (x : Float)
| IntValue (n : Z).

(** The effects of a process that other processes or a later run can
    see, each recorded with the epoch that performs it. *)
Inductive event : Type :=
| NetworkTrain
| AddScalar (tag : string) (global_step : nat) (scalar_value : ScalarValue)
| TorchSave (obj : Checkpoint) (f : string)
| Barrier (point : barrier_point).

Record State : Type := {
  network : Network;
  optimizer : Optimizer;
  scheduler : Scheduler;
  step_counter : nat;
  trace : list (Z * event)
}.

(** Modelled from the spec: [util.misc] is not part of the sources.  "In
    distributed mode, only one designated process performs logging and
    checkpoint writes": [is_main_process] tells whether this process is
    the designated one, and [save_on_master] writes only there. *)
Variable is_main_process : bool.

(** The files [torch.load] can read. *)
Variable files : gmap string Checkpoint.

(** The collaborators: the freshly built network, optimizer and
    scheduler (lines 120, 143-148, 155-158), one optimisation step on a
    batch (lines 173-194) returning the loss, [scheduler.step()], the
    learning rate of the first parameter group, and the batches the
    dataloader yields in an epoch.  They are taken to return. *)
Variable TransformerNetwork : Network.
Variable AdamW : Network → Optimizer.
Variable CosineAnnealingWarmRestarts : Optimizer → Scheduler * Optimizer.
Variable training_step : Network → Optimizer → Batch → Network * Optimizer * Float.
Variable scheduler_step : Scheduler → Optimizer → Scheduler * Optimizer.
Variable lr : Optimizer → Float.
Variable train_dataloader : Z → list Batch.

Definition emit (e : Z) (evs : list event) (st : State) : State :=
  {| network := network st; optimizer := optimizer st;
     scheduler := scheduler st; step_counter := step_counter st;
     trace := trace st ++ ((λ ev, (e, ev)) <$> evs) |}.

Definition save_on_master (e : Z) (obj : Checkpoint) (f : string)
    (st : State) : State :=
  if is_main_process then emit e [TorchSave obj f] st else st.

(** Lines 173-219: one batch. *)
Definition train_batch (e : Z) (st : State) (item : Batch) : State :=
  let '(network', optimizer', loss) :=
    training_step (network st) (optimizer st) item in
  let st1 :=
    {| network := network'; optimizer := optimizer'; scheduler := scheduler st;
       step_counter := step_counter st; trace := trace st |} in
  let st2 :=
    if is_main_process
    then emit e [AddScalar "loss_ce" (step_counter st1) (FloatValue loss);
                 AddScalar "epoch" (step_counter st1) (IntValue e);
                 AddScalar "lr" (step_counter st1) (FloatValue (lr optimizer'))]
           st1
    else st1 in
  {| network := network st2; optimizer := optimizer st2;
     scheduler := scheduler st2; step_counter := S (step_counter st2);
     trace := trace st2 |}.

(** Lines 240-247. *)
Definition make_checkpoint (a : Args) (st : State) (e : Z) : Checkpoint :=
  let network_without_ddp := network st in
  <["epoch" := Int e]>
  (<["scheduler_state_dict" := SchedulerStateDict (state_dict (scheduler st))]>
  (<["optimizer_state_dict" := OptimizerStateDict (state_dict (optimizer st))]>
  (<["model_state_dict" :=
       NetworkStateDict (if distributed a
                         then state_dict network_without_ddp
                         else state_dict (network st))]> ∅))).

(** Lines 236-264. *)
Definition checkpoint_step (self : t) (e : Z) (st : State) : State :=
  let checkpoint_filename :=
    os_path_join (checkpoint_dir self) (pretty e +:+ "-checkpoint.pth") in
  let checkpoint := make_checkpoint (args self) st e in
  let st := save_on_master e checkpoint checkpoint_filename st in
  if distributed (args self)
  then emit e [Barrier end_of_val] (emit e [Barrier end_of_epoch] st)
  else st.

(** Lines 166-271: one epoch. *)
Definition train_epoch (self : t) (st : State) (e : Z) : result State :=
  let st := emit e [NetworkTrain] st in
  let st := foldl (train_batch e) st (train_dataloader e) in
  if decide (val_interval (args self) = 0%Z) then Raise ZeroDivisionError
  else
    let st :=
      if decide (((e + 1) `mod` val_interval (args self))%Z = 0%Z)
      then checkpoint_step self e st
      else st in
    let '(scheduler', optimizer') := scheduler_step (scheduler st) (optimizer st) in
    Ok {| network := network st; optimizer := optimizer'; scheduler := scheduler';
          step_counter := step_counter st; trace := trace st |}.

(** Reading a loaded checkpoint; a missing (or ill-typed) entry raises. *)
Definition checkpoint_model (ck : Checkpoint) : result NetworkState :=
  match ck !! "model_state_dict" with
  | Some (NetworkStateDict sd) => Ok sd
  | _ => Raise KeyError
  end.

Definition checkpoint_optimizer (ck : Checkpoint) : result OptimizerState :=
  match ck !! "optimizer_state_dict" with
  | Some (OptimizerStateDict sd) => Ok sd
  | _ => Raise KeyError
  end.

Definition checkpoint_scheduler (ck : Checkpoint) : result SchedulerState :=
  match ck !! "scheduler_state_dict" with
  | Some (SchedulerStateDict sd) => Ok sd
  | _ => Raise KeyError
  end.

Definition checkpoint_epoch (ck : Checkpoint) : result Z :=
  match ck !! "epoch" with
  | Some (Int e) => Ok e
  | _ => Raise KeyError
  end.

(** Lines 149-152 and 159-162: the three [load_state_dict] calls. *)
Definition load_checkpoint (ck : Checkpoint) (st : State) : result State :=
  model_state_dict ← checkpoint_model ck;
  optimizer_state_dict ← checkpoint_optimizer ck;
  scheduler_state_dict ← checkpoint_scheduler ck;
  Ok {| network := load_state_dict (network st) model_state_dict;
        optimizer := load_state_dict (optimizer st) optimizer_state_dict;
        scheduler := load_state_dict (scheduler st) scheduler_state_dict;
        step_counter := step_counter st; trace := trace st |}.

(** Lines 120-162: network, optimizer and scheduler before the loop. *)
Definition setup (self : t) (checkpoint : option Checkpoint) : result State :=
  let network := TransformerNetwork in
  let network_without_ddp := network in
  let optimizer :=
    if distributed (args self) then AdamW network_without_ddp else AdamW network in
  let '(scheduler, optimizer) := CosineAnnealingWarmRestarts optimizer in
  let st := {| network := network; optimizer := optimizer; scheduler := scheduler;
               step_counter := train_step self; trace := [] |} in
  match checkpoint with
  | Some ck => load_checkpoint ck st
  | None => Ok st
  end.

(** Line 164 *)
Definition epoch_start (checkpoint : option Checkpoint) : result Z :=
  match checkpoint with
  | Some ck => checkpoint_epoch ck
  | None => Ok 0%Z
  end.

Definition train (self : t) : result State :=
  checkpoint ←
    (if resume (args self)
     then ck ← or_raise (files !! resume_from_checkpoint (args self))
                 FileNotFoundError;
          Ok (Some ck)
     else Ok None);
  st ← setup self checkpoint;
  epoch_start ← epoch_start checkpoint;
  for_loop (train_epoch self) st (range epoch_start (epochs (args self))).

(** Lines 454-462.  [copy.deepcopy] of a dictionary of tensors is the
    dictionary itself here; every key is then overwritten. *)
Definition retrieve_single_timestep {A : Type}
    (dict_obj : gmap string (torch.Tensor A)) (idx : Z)
    : result (gmap string (torch.Tensor A)) :=
  map_fold (λ k v acc,
              dict_obj_return ← acc;
              x ← torch.select_dim1 v idx;
              Ok (<[k := x]> dict_obj_return))
    (Ok dict_obj) dict_obj.

(** *** Reading a trace *)

Definition epochs_entered (tr : list (Z * event)) : list Z :=
  omap (λ x, match x.2 with NetworkTrain => Some x.1 | _ => None end) tr.

Definition saves (tr : list (Z * event)) : list (Z * (Checkpoint * string)) :=
  omap (λ x, match x.2 with
             | TorchSave obj f => Some (x.1, (obj, f))
             | _ => None
             end) tr.

Definition is_barrier (x : Z * event) : bool :=
  match x.2 with Barrier _ => true | _ => false end.

Definition is_write (x : Z * event) : bool :=
  match x.2 with AddScalar _ _ _ | TorchSave _ _ => true | _ => false end.

End WithCollaborators.
End Trainer.

(** *** The shape of a training trace *)

(** The condition of line 236. *)
Definition checkpoint_epoch (self : Trainer.t) (e : Z) : Prop :=
  ((e + 1) `mod` Trainer.val_interval (Trainer.args self))%Z = 0%Z.

#[global] Instance checkpoint_epoch_dec self e : Decision (checkpoint_epoch self e).
Proof. unfold checkpoint_epoch. apply _. Defined.

Section TraceShape.

Context {NetworkState OptimizerState SchedulerState Float : Type}.

Abbreviation Event :=
  (@Trainer.event NetworkState OptimizerState SchedulerState Float).
Abbreviation Ckpt :=
  (gmap string (@Trainer.CheckpointValue NetworkState OptimizerState SchedulerState)).

(** Lines 237-239. *)
Definition checkpoint_filename (self : Trainer.t) (e : Z) : string :=
  os_path_join (Trainer.checkpoint_dir self) (pretty e +:+ "-checkpoint.pth").

Definition checkpoint_keys : gset string :=
  {[ "model_state_dict"; "optimizer_state_dict"; "scheduler_state_dict"; "epoch" ]}.

Definition is_add_scalar (e : Z) (x : Z * Event) : Prop :=
  x.1 = e ∧ ∃ tag global_step value, x.2 = Trainer.AddScalar tag global_step value.

(** What a process does at the end of a checkpoint epoch: the write (on
    the main process), then the two barriers (in distributed mode). *)
Definition checkpoint_events (self : Trainer.t) (is_main : bool) (e : Z)
    (ck : Ckpt) : list (Z * Event) :=
  (if is_main then [(e, Trainer.TorchSave ck (checkpoint_filename self e))] else [])
  ++ (if Trainer.distributed (Trainer.args self)
      then [(e, Trainer.Barrier Trainer.end_of_epoch);
            (e, Trainer.Barrier Trainer.end_of_val)]
      else []).

(** [tr] is what one pass through the loop body records in epoch [e]. *)
Definition epoch_trace_of (self : Trainer.t) (is_main : bool) (e : Z)
    (tr : list (Z * Event)) : Prop :=
  ∃ (scalars : list (Z * Event)) (ck : Ckpt),
    tr = [(e, Trainer.NetworkTrain)] ++ scalars
         ++ (if decide (checkpoint_epoch self e)
             then checkpoint_events self is_main e ck else []) ∧
    Forall (is_add_scalar e) scalars ∧
    (is_main = false → scalars = []) ∧
    dom ck = checkpoint_keys ∧
    ck !! "epoch" = Some (Trainer.Int e).

(** [tr] is what the loop records over the epochs [es]. *)
Definition trace_shape (self : Trainer.t) (is_main : bool) (es : list Z)
    (tr : list (Z * Event)) : Prop :=
  ∃ trs, tr = concat trs ∧ Forall2 (epoch_trace_of self is_main) es trs.

(** A checkpoint file that [train] can resume from at epoch [E]. *)
Definition resumable (ck : Ckpt) (E : Z) : Prop :=
  ∃ model_state_dict optimizer_state_dict scheduler_state_dict,
    ck !! "model_state_dict" = Some (Trainer.NetworkStateDict model_state_dict) ∧
    ck !! "optimizer_state_dict" = Some (Trainer.OptimizerStateDict optimizer_state_dict) ∧
    ck !! "scheduler_state_dict" = Some (Trainer.SchedulerStateDict scheduler_state_dict) ∧
    ck !! "epoch" = Some (Trainer.Int E).

(** The run starts at epoch [start]: a fresh run at 0, a resumed run at
    the epoch stored in the checkpoint file. *)
Definition starts_at (self : Trainer.t) (files : gmap string Ckpt) (start : Z)
    : Prop :=
  (Trainer.resume (Trainer.args self) = false ∧ start = 0%Z) ∨
  (Trainer.resume (Trainer.args self) = true ∧
   ∃ ck, files !! Trainer.resume_from_checkpoint (Trainer.args self) = Some ck ∧
         resumable ck start).

(** What a save event must look like for epoch [e]. *)
Definition good_save (self : Trainer.t) (x : Z * (Ckpt * string)) : Prop :=
  dom x.2.1 = checkpoint_keys ∧
  x.2.1 !! "epoch" = Some (Trainer.Int x.1) ∧
  x.2.2 = checkpoint_filename self x.1.

End TraceShape.

(** *** A sample batch: two sequences of three time steps *)

Definition sample_batch : gmap string (torch.Tensor nat) :=
  <["image" := torch.mkTensor [2; 3; 2] (seq 0 12)]>
  (<["natural_language_embedding" := torch.mkTensor [2; 3] (seq 100 6)]> ∅).

(** *** A sample run: numbers for the network, optimizer and scheduler *)

#[global] Instance sample_stateful : Trainer.Stateful nat nat :=
  {| Trainer.state_dict x := x; Trainer.load_state_dict _ sd := sd |}.

Definition sample_args (resume : bool) : Trainer.Args :=
  {| Trainer.distributed := true; Trainer.resume := resume;
     Trainer.resume_from_checkpoint := "logs/1699990000/1-checkpoint.pth";
     Trainer.epochs := 4; Trainer.val_interval := 2;
     Trainer.log_dir := "logs" |}.

Definition sample_trainer (resume : bool) : Trainer.t :=
  Trainer.__init__ (sample_args resume) "1700000000.25".

Definition sample_checkpoint
    : gmap string (@Trainer.CheckpointValue nat nat nat) :=
  <["epoch" := Trainer.Int 1]>
  (<["scheduler_state_dict" := Trainer.SchedulerStateDict 7]>
  (<["optimizer_state_dict" := Trainer.OptimizerStateDict 5]>
  (<["model_state_dict" := Trainer.NetworkStateDict 3]> ∅))).

Definition sample_files
    : gmap string (gmap string (@Trainer.CheckpointValue nat nat nat)) :=
  <["logs/1699990000/1-checkpoint.pth" := sample_checkpoint]> ∅.

(** Two batches per epoch; a training step adds the batch to the network
    and counts in the optimizer, the scheduler counts its steps. *)
Definition sample_train (is_main_process resume : bool)
    : result (@Trainer.State nat nat nat nat nat nat nat) :=
  Trainer.train (Batch := nat) is_main_process sample_files
    0 (λ network, 0) (λ optimizer, (0, optimizer))
    (λ network optimizer item, (network + item, optimizer + 1, item))
    (λ scheduler optimizer, (scheduler + 1, optimizer))
    (λ optimizer, optimizer)
    (λ e, [1; 2])
    (sample_trainer resume).

(** ** Proof automation *)

Ltac unfold_mapper :=
  unfold step_map_fn, jaco_step_map_fn, berkeley_cable_routing_step_map_fn,
    bridge_step_map_fn, toto_step_map_fn.


(** ** Further samples *)

(** A toto step whose [open_gripper] is a scalar boolean. *)
Definition sample_toto_step : Step :=
  sample_step
    (<["open_gripper" := source_tensor "open_gripper" [] tf.bool_]>
     (<["rotation_delta" := source_tensor "rotation_delta" [3] tf.float32]>
     (<["world_vector" := source_tensor "world_vector" [3] tf.float32]> ∅))).

(** ** Fetching a batch from the combined dataset *)

Section Fetch.

Context {Iterator TorchTensor : Type}.
Variable tf_to_torch : tf.Tensor → TorchTensor.
Variable next : Iterator → option (Step * Iterator).

(** Successive [dataset[idx]] calls on one dataset object, one for each
    index of a batch, each going through [CombinedDataset.__getitem__]:
    [[dataset[idx] for idx in indices]], as the single-process
    [DataLoader] of [train] (lines 101-108, [num_workers=0]) fetches a
    batch. *)
Fixpoint fetch (self : CombinedDataset.t) (indices : list Z)
    : result (list (gmap string (Value TorchTensor)) * CombinedDataset.t) :=
  match indices with
  | [] => Ok ([], self)
  | idx :: indices' =>
      '(example, self') ← CombinedDataset.__getitem__ tf_to_torch next self idx;
      '(examples, self'') ← fetch self' indices';
      Ok (example :: examples, self'')
  end.


End Fetch.

(** A stream given by the list of its remaining elements. *)
Definition list_next (it : list Step) : option (Step * list Step) :=
  match it with
  | [] => None
  | example :: it' => Some (example, it')
  end.

(** ** Reading the scalars of a trace; a group of processes *)

Section Scalars.

Context {NetworkState OptimizerState SchedulerState Float : Type}.

Local Abbreviation Event :=
  (@Trainer.event NetworkState OptimizerState SchedulerState Float).

(** The [add_scalar] calls of a trace, in order: tag and global step. *)
Definition scalars_logged (tr : list (Z * Event)) : list (string * nat) :=
  omap (λ x, match x.2 with
             | Trainer.AddScalar tag global_step _ => Some (tag, global_step)
             | _ => None
             end) tr.

(** The three scalars of lines 199-218 for the batch with counter [n]. *)
Definition batch_scalars (n : nat) : list (string * nat) :=
  [("loss_ce", n); ("epoch", n); ("lr", n)].

(** Every "epoch" scalar carries the epoch that logged it. *)
Definition epoch_scalar_ok (x : Z * Event) : Prop :=
  ∀ global_step value,
    x.2 = Trainer.AddScalar "epoch" global_step value →
    value = Trainer.IntValue x.1.

(** The barriers of a trace, in order. *)
Definition barriers (tr : list (Z * Event)) : list (Z * Trainer.barrier_point) :=
  omap (λ x, match x.2 with
             | Trainer.Barrier point => Some (x.1, point)
             | _ => None
             end) tr.

(** C4 as it is stated: every epoch the run enters ends with a barrier. *)
Definition barrier_at_every_epoch (tr : list (Z * Event)) : Prop :=
  ∀ e, e ∈ Trainer.epochs_entered tr → ∃ point, (e, point) ∈ barriers tr.

(** No write of an epoch follows a barrier of that epoch or of a later
    one. *)
Definition write_after_barrier_is_later (x y : Z * Event) : Prop :=
  Trainer.is_barrier x = true → Trainer.is_write y = true → (x.1 < y.1)%Z.

(** A process of the group: the events it has performed and the rest of
    its program. *)
Record Process : Type := { done : list (Z * Event); todo : list (Z * Event) }.

Definition at_barrier (p : Process) : Prop :=
  ∃ x rest, todo p = x :: rest ∧ Trainer.is_barrier x = true.

Definition advance (p : Process) : Process :=
  match todo p with
  | x :: rest => {| done := done p ++ [x]; todo := rest |}
  | [] => p
  end.

(** One step of the group.  A process performs its next event on its own
    unless that event is [torch.distributed.barrier()]: a barrier
    returns only once every process of the group has entered it, so all
    processes leave it together. *)
Inductive group_step : list Process → list Process → Prop :=
| step_local (group : list Process) (i : nat) (p : Process)
    (x : Z * Event) (rest : list (Z * Event)) :
    group !! i = Some p →
    todo p = x :: rest →
    Trainer.is_barrier x = false →
    group_step group (<[i := advance p]> group)
| step_barrier (group : list Process) :
    Forall at_barrier group →
    group_step group (advance <$> group).

Definition start_group (programs : list (list (Z * Event))) : list Process :=
  (λ program, {| done := []; todo := program |}) <$> programs.

Definition reachable (programs : list (list (Z * Event)))
    (group : list Process) : Prop :=
  rtc group_step (start_group programs) group.

End Scalars.

(** What the epoch loop keeps true between two states: the step counter
    has advanced by the number of batches, the main process has logged
    the three scalars of each batch under the counter of that batch,
    another process has logged nothing, and the "epoch" scalars stay
    right. *)
Definition logged {Network Optimizer Scheduler NetworkState OptimizerState
    SchedulerState Float : Type} (is_main_process : bool)
    (st0 : @Trainer.State Network Optimizer Scheduler NetworkState
             OptimizerState SchedulerState Float)
    (batches : nat)
    (st : @Trainer.State Network Optimizer Scheduler NetworkState
            OptimizerState SchedulerState Float) : Prop :=
  Trainer.step_counter st = Trainer.step_counter st0 + batches ∧
  scalars_logged (Trainer.trace st) =
    scalars_logged (Trainer.trace st0) ++
    (if is_main_process
     then concat (batch_scalars <$> seq (Trainer.step_counter st0) batches)
     else []) ∧
  (Forall epoch_scalar_ok (Trainer.trace st0) →
   Forall epoch_scalar_ok (Trainer.trace st)).

(** The trace a run leaves behind ([[]] when it raised). *)
Definition program_of {Network Optimizer Scheduler NetworkState OptimizerState
    SchedulerState Float : Type}
    (run : result (@Trainer.State Network Optimizer Scheduler NetworkState
                     OptimizerState SchedulerState Float))
    : list (Z * @Trainer.event NetworkState OptimizerState SchedulerState Float) :=
  match run with
  | Ok st => Trainer.trace st
  | Raise _ => []
  end.

(** ** Trainer.dict_to_device *)

Section DictToDevice.

Context {T Device : Type}.

(** [v.to(device)] *)
Variable to : T → Device → T.

(** Lines 464-471.  A value of the dictionary is a tensor ([Leaf]) or
    not (here: a nested dictionary); the assertion fails on the first
    value that is no tensor. *)
Definition dict_to_device (dict_obj : gmap string (Value T)) (device : Device)
    : result (gmap string (Value T)) :=
  map_fold (λ k v acc,
              dict_obj ← acc;
              match v with
              | Leaf t => Ok (<[k := Leaf (to t device)]> dict_obj)
              | Nested _ => Raise AssertionError
              end)
    (Ok dict_obj) dict_obj.

End DictToDevice.

(** The barrier calls of epoch [e] (lines 249-264): two in a checkpoint
    epoch of a distributed run, none otherwise. *)
Definition epoch_barriers (self : Trainer.t) (e : Z)
    : list (Z * Trainer.barrier_point) :=
  if Trainer.distributed (Trainer.args self)
  then if decide (checkpoint_epoch self e)
       then [(e, Trainer.end_of_epoch); (e, Trainer.end_of_val)]
       else []
  else [].

(** Process [j] of the group has performed every write of [program] up
    to the epoch of any barrier that some process has left. *)
Definition barrier_waits_for {NetworkState OptimizerState SchedulerState
    Float : Type}
    (program : list (Z * @Trainer.event NetworkState OptimizerState
                           SchedulerState Float))
    (group : list (@Process NetworkState OptimizerState SchedulerState Float))
    (j : nat) : Prop :=
  ∀ i p_i p_j e point,
    group !! i = Some p_i →
    (e, Trainer.Barrier point) ∈ done p_i →
    group !! j = Some p_j →
    ∀ x, x ∈ program → Trainer.is_write x = true → (x.1 ≤ e)%Z → x ∈ done p_j.

(** Process [i] performs its next event. *)
Definition local_step {NetworkState OptimizerState SchedulerState Float : Type}
    (i : nat)
    (group : list (@Process NetworkState OptimizerState SchedulerState Float))
    : list Process :=
  match group !! i with
  | Some p => <[i := advance p]> group
  | None => group
  end.

(** *** A small distributed run: one epoch, a checkpoint after it *)

Definition small_args : Trainer.Args :=
  {| Trainer.distributed := true; Trainer.resume := false;
     Trainer.resume_from_checkpoint := "";
     Trainer.epochs := 1; Trainer.val_interval := 1;
     Trainer.log_dir := "logs" |}.

Definition small_trainer : Trainer.t := Trainer.__init__ small_args "1700000000.25".

(** The main process with one batch, another process with two. *)
Definition small_procs : list (bool * (Z → list nat)) :=
  [(true, λ e, [1]); (false, λ e, [2; 3])].

Definition small_program (p : bool * (Z → list nat))
    : list (Z * @Trainer.event nat nat nat nat) :=
  program_of
    (Trainer.train (Batch := nat) p.1 sample_files
       0 (λ network, 0) (λ optimizer, (0, optimizer))
       (λ network optimizer item, (network + item, optimizer + 1, item))
       (λ scheduler optimizer, (scheduler + 1, optimizer))
       (λ optimizer, optimizer)
       p.2 small_trainer).

(** The main process has put the network in training mode, logged its
    three scalars and written its checkpoint, the other process has put
    its network in training mode, and both have left the first barrier. *)
Definition small_group : list (@Process nat nat nat nat) :=
  advance <$>
    local_step 1
      (local_step 0 (local_step 0 (local_step 0 (local_step 0 (local_step 0
         (start_group (small_program <$> small_procs))))))).
(* ================================================================== *)
(** * Theorems *)

(** ** Step mappers *)

Lemma sample_resize_with_pad_spec : tf.resize_with_pad_spec sample_resize_with_pad.
Proof.
  intros image th tw resized. unfold sample_resize_with_pad.
  destruct (decide (tf.dtype image = tf.bool_)); [discriminate|].
  destruct (tf.shape image) as [|h [|w [|c [|d [|x rest]]]]]; try discriminate.
  - destruct (decide _); [discriminate|]. intros [= <-]. reflexivity.
  - destruct (decide _); [discriminate|]. intros [= <-]. reflexivity.
Qed.

Lemma action_spec_transformed_step
    (image nle first_three middle_three final_one : tf.Tensor)
    (is_first is_last is_terminal : Value tf.Tensor) :
  action_spec (transformed_step image nle first_three middle_three final_one
                 is_first is_last is_terminal) =
    Some (<["final_one" := tensor_spec final_one]>
          (<["middle_three" := tensor_spec middle_three]>
          (<["first_three" := tensor_spec first_three]> ∅))).
Proof.
  unfold action_spec, transformed_step, subdict.
  rewrite lookup_insert_ne by done. rewrite lookup_insert_ne by done.
  rewrite lookup_insert_ne by done. rewrite lookup_insert_eq.
  by rewrite !fmap_insert, fmap_empty.
Qed.

Section StepMapFnFacts.

Variable resize_with_pad : tf.Tensor → nat → nat → option tf.Tensor.
Hypothesis resize_with_pad_shape : tf.resize_with_pad_spec resize_with_pad.

Lemma map_image_3d (image resized : tf.Tensor) (H W C : nat) :
  tf.shape image = [H; W; C] →
  resize_with_pad image TARGET_HEIGHT TARGET_WIDTH = Some resized →
  map_image resize_with_pad image =
    Some {| tf.shape := [C; 128; 160]; tf.dtype := tf.uint8;
            tf.op := tf.Transpose (tf.Cast (tf.op resized) tf.uint8) [2; 0; 1] |}.
Proof.
  intros Hs Hr. unfold map_image. rewrite Hr. simpl.
  pose proof (resize_with_pad_shape _ _ _ _ Hr) as Hshape.
  rewrite Hs in Hshape. injection Hshape as Hshape.
  unfold tf.transpose, tf.cast. simpl. rewrite <- Hshape. reflexivity.
Qed.

(** Every mapper returns on a native step, and the result is the
    [transformed_step] assembled from the mapped fields. *)
Lemma step_map_fn_native (s : source) (step : Step) :
  native_step resize_with_pad s step →
  ∃ image0 image nle t1 t2 t3 final_one is_first is_last is_terminal,
    getitem2 step "observation" "image" = Some image0 ∧
    map_image resize_with_pad image0 = Some image ∧
    getitem2 step "observation" "natural_language_embedding" = Some nle ∧
    getitem2 step "action" (first_three_field s) = Some t1 ∧
    getitem2 step "action" (middle_three_field s) = Some t2 ∧
    getitem2 step "action" (final_one_field s) = Some t3 ∧
    final_one = match s with
                | berkeley_cable_routing =>
                    {| tf.shape := [1]; tf.dtype := tf.dtype t3;
                       tf.op := tf.Reshape (tf.op t3) [1] |}
                | _ => tf.cast t3 tf.float32
                end ∧
    step !! "is_first" = Some is_first ∧
    step !! "is_last" = Some is_last ∧
    step !! "is_terminal" = Some is_terminal ∧
    step_map_fn resize_with_pad s step =
      Some (transformed_step image nle (tf.cast t1 tf.float32)
              (tf.cast t2 tf.float32) final_one is_first is_last is_terminal).
Proof.
  intros [(image0 & H & W & C & resized & Himg & Hshape & Hres) [nle Hnle]
            [t1 H1] [t2 H2] (t3 & H3 & Hone) [f Hf] [l Hl] [t Ht]].
  pose proof (map_image_3d image0 resized H W C Hshape Hres) as Hmap.
  exists image0. eexists. exists nle, t1, t2, t3. eexists. exists f, l, t.
  split_and!; try eassumption; try reflexivity.
  destruct s; unfold first_three_field, middle_three_field, final_one_field in *;
    simpl in H1, H2, H3; unfold_mapper;
    rewrite Himg; simpl; rewrite Hmap; simpl;
    rewrite Hnle, H1; simpl; rewrite H2; simpl; rewrite H3; simpl.
  all: try (unfold tf.reshape; rewrite decide_True by (rewrite Hone; done); simpl).
  all: rewrite Hf, Hl, Ht; reflexivity.
Qed.

(** C3. For each of the four step mappers and every step whose observation
    image has shape (H, W, C), the mapped image is the input image
    resized with padding to height 128 and width 160, cast to uint8 and
    transposed to channel-first layout, of shape (C, 128, 160); the
    language embedding and the three episode flags are passed through
    unchanged.  The step is one on which the mapper returns: it carries
    the fields the mapper reads and [tf.image.resize_with_pad] accepts
    its image. *)
Theorem step_map_fn_observation (s : source) (step : Step)
    (image : tf.Tensor) (H W C : nat) :
  native_step resize_with_pad s step →
  getitem2 step "observation" "image" = Some image →
  tf.shape image = [H; W; C] →
  ∃ out resized,
    step_map_fn resize_with_pad s step = Some out ∧
    resize_with_pad image 128 160 = Some resized ∧
    getitem2 out "observation" "image" =
      Some {| tf.shape := [C; 128; 160];
              tf.dtype := tf.uint8;
              tf.op := tf.Transpose (tf.Cast (tf.op resized) tf.uint8)
                         [2; 0; 1] |} ∧
    getitem2 out "observation" "natural_language_embedding" =
      getitem2 step "observation" "natural_language_embedding" ∧
    out !! "is_first" = step !! "is_first" ∧
    out !! "is_last" = step !! "is_last" ∧
    out !! "is_terminal" = step !! "is_terminal".
Proof.
  intros Hnative Himg Hshape.
  destruct (step_map_fn_native s step Hnative)
    as (i0 & i & nle & t1 & t2 & t3 & fo & f & l & t & Hi0 & Hmap & Hnle & _ & _
        & _ & _ & Hf & Hl & Ht & Hrun).
  rewrite Himg in Hi0. injection Hi0 as <-.
  destruct (ns_image _ _ _ Hnative)
    as (image' & H' & W' & C' & resized & Himg' & _ & Hres).
  rewrite Himg in Himg'. injection Himg' as <-.
  rewrite (map_image_3d image resized H W C Hshape Hres) in Hmap.
  injection Hmap as <-.
  exists (transformed_step
            {| tf.shape := [C; 128; 160]; tf.dtype := tf.uint8;
               tf.op := tf.Transpose (tf.Cast (tf.op resized) tf.uint8)
                          [2; 0; 1] |}
            nle (tf.cast t1 tf.float32) (tf.cast t2 tf.float32) fo f l t), resized.
  split; [exact Hrun|]. split; [exact Hres|].
  rewrite Hnle, Hf, Hl, Ht. split_and!; reflexivity.
Qed.

(** C1 (amended). For each of the four step mappers, given a native step
    whose fields routed to [first_three] and [middle_three] have shape
    (3,), the mapped action has exactly the three groups; [first_three]
    and [middle_three] are float32 of shape (3,); [final_one] has the
    shape of the native field it comes from and is float32 for the jaco,
    bridge and toto mappers (the cast keeps the shape: a scalar stays a
    scalar), and has shape (1,) for the Berkeley mapper.  Whenever
    [final_one] comes out as float32 of shape (1,), the action schema is
    the common one, the same for every source. *)
Theorem step_map_fn_action_spec (s : source) (step : Step)
    (t1 t2 t3 : tf.Tensor) :
  native_step resize_with_pad s step →
  getitem2 step "action" (first_three_field s) = Some t1 →
  getitem2 step "action" (middle_three_field s) = Some t2 →
  getitem2 step "action" (final_one_field s) = Some t3 →
  tf.shape t1 = [3] →
  tf.shape t2 = [3] →
  ∃ out d,
    step_map_fn resize_with_pad s step = Some out ∧
    action_spec out = Some (mapped_action_spec (final_one_shape s t3) d) ∧
    (s ≠ berkeley_cable_routing → d = tf.float32) ∧
    (final_one_shape s t3 = [1] → d = tf.float32 →
     action_spec out = Some canonical_action_spec).
Proof.
  intros Hnative H1 H2 H3 Hs1 Hs2.
  destruct (step_map_fn_native s step Hnative)
    as (i0 & i & nle & u1 & u2 & u3 & fo & f & l & t & _ & _ & _ & Hu1 & Hu2
        & Hu3 & Hfo & _ & _ & _ & Hrun).
  rewrite H1 in Hu1. injection Hu1 as <-.
  rewrite H2 in Hu2. injection Hu2 as <-.
  rewrite H3 in Hu3. injection Hu3 as <-.
  exists (transformed_step i nle (tf.cast t1 tf.float32) (tf.cast t2 tf.float32)
            fo f l t), (tf.dtype fo).
  assert (action_spec (transformed_step i nle (tf.cast t1 tf.float32)
                         (tf.cast t2 tf.float32) fo f l t) =
          Some (mapped_action_spec (final_one_shape s t3) (tf.dtype fo))) as Hact.
  { rewrite action_spec_transformed_step. unfold mapped_action_spec, tensor_spec.
    simpl. rewrite Hs1, Hs2. subst fo. by destruct s. }
  split_and!; [exact Hrun | exact Hact | |].
  - intros Hs. subst fo. by destruct s.
  - intros Hshape Hd. rewrite Hact, Hshape, Hd. reflexivity.
Qed.

End StepMapFnFacts.

Lemma sample_bridge_step_native :
  native_step sample_resize_with_pad bridge sample_bridge_step.
Proof.
  split; try (eexists; reflexivity).
  - exists sample_image, 480, 640, 3. eexists. split_and!; reflexivity.
  - eexists. split; [reflexivity | discriminate].
Qed.

Lemma sample_toto_step_native :
  native_step sample_resize_with_pad toto sample_toto_step.
Proof.
  split; try (eexists; reflexivity).
  - exists sample_image, 480, 640, 3. eexists. split_and!; reflexivity.
  - eexists. split; [reflexivity | discriminate].
Qed.

Lemma step_map_fn_observation_witness :
  ∃ out resized,
    step_map_fn sample_resize_with_pad bridge sample_bridge_step = Some out ∧
    sample_resize_with_pad sample_image 128 160 = Some resized ∧
    getitem2 out "observation" "image" =
      Some {| tf.shape := [3; 128; 160];
              tf.dtype := tf.uint8;
              tf.op := tf.Transpose (tf.Cast (tf.op resized) tf.uint8)
                         [2; 0; 1] |} ∧
    getitem2 out "observation" "natural_language_embedding" =
      getitem2 sample_bridge_step "observation" "natural_language_embedding" ∧
    out !! "is_first" = sample_bridge_step !! "is_first" ∧
    out !! "is_last" = sample_bridge_step !! "is_last" ∧
    out !! "is_terminal" = sample_bridge_step !! "is_terminal".
Proof.
  apply (step_map_fn_observation sample_resize_with_pad
           sample_resize_with_pad_spec bridge sample_bridge_step
           sample_image 480 640 3).
  - exact sample_bridge_step_native.
  - reflexivity.
  - reflexivity.
Defined.

Lemma step_map_fn_action_spec_witness :
  ∃ out d,
    step_map_fn sample_resize_with_pad toto sample_toto_step = Some out ∧
    action_spec out =
      Some (mapped_action_spec
              (final_one_shape toto (source_tensor "open_gripper" [] tf.bool_)) d) ∧
    (toto ≠ berkeley_cable_routing → d = tf.float32) ∧
    (final_one_shape toto (source_tensor "open_gripper" [] tf.bool_) = [1] →
     d = tf.float32 →
     action_spec out = Some canonical_action_spec).
Proof.
  apply (step_map_fn_action_spec sample_resize_with_pad
           sample_resize_with_pad_spec toto sample_toto_step
           (source_tensor "world_vector" [3] tf.float32)
           (source_tensor "rotation_delta" [3] tf.float32)
           (source_tensor "open_gripper" [] tf.bool_)).
  - exact sample_toto_step_native.
  - reflexivity.
  - reflexivity.
  - reflexivity.
  - reflexivity.
  - reflexivity.
Defined.

(** C1 as stated fails: a toto step whose designated action fields have
    their native shapes, (3,) and (3,) for the two vectors and () for the
    scalar [open_gripper], is a step the mapper returns on, and its
    [final_one] is the cast scalar, of shape () and not (1,).  Whatever
    [tf.image.resize_with_pad] does with the image, the mapped step does
    not have the claimed schema. *)
Lemma step_map_fn_action_spec_counterexample :
  native_step sample_resize_with_pad toto sample_toto_step ∧
  (tf.shape <$> getitem2 sample_toto_step "action" "world_vector") = Some [3] ∧
  (tf.shape <$> getitem2 sample_toto_step "action" "rotation_delta") = Some [3] ∧
  (tf.shape <$> getitem2 sample_toto_step "action" "open_gripper") = Some [] ∧
  (∃ out, step_map_fn sample_resize_with_pad toto sample_toto_step = Some out ∧
          (tensor_spec <$> getitem2 out "action" "final_one") =
            Some ([], tf.float32)) ∧
  (∀ resize_with_pad,
     ¬ has_canonical_action_spec resize_with_pad toto sample_toto_step).
Proof.
  split_and!; try reflexivity.
  - exact sample_toto_step_native.
  - eexists. split; reflexivity.
  - intros resize_with_pad (out & Hrun & Hspec).
    simpl in Hrun. unfold toto_step_map_fn in Hrun.
    repeat (apply bind_Some in Hrun as (? & ? & Hrun)).
    injection Hrun as <-.
    rewrite action_spec_transformed_step in Hspec.
    apply (inj Some) in Hspec.
    apply (f_equal (λ m, m !! "final_one")) in Hspec.
    unfold canonical_action_spec in Hspec. rewrite !lookup_insert_eq in Hspec.
    match goal with
    | Hg : getitem2 sample_toto_step "action" "open_gripper" = Some _ |- _ =>
        vm_compute in Hg; injection Hg as <-
    end.
    discriminate.
Qed.

(** ** CombinedDataset *)

Section CombinedDatasetFacts.

Context {Dataset Iterator TensorSpec TorchTensor : Type}.
Context `{EqDecision TensorSpec}.

Abbreviation Transform := (@CombinedDataset.TrajectoryTransform TensorSpec).

Variable build_dataset : string → string → nat → Dataset * Transform.
Variable tf_to_torch : tf.Tensor → TorchTensor.
Variable sample_from_datasets_iter : list Dataset → Iterator.
Variable next : Iterator → option (Step * Iterator).

Lemma assert_loop_ok (template : Transform) (transforms : list Transform) :
  Forall (λ tr, CombinedDataset.expected_tensor_spec tr =
                CombinedDataset.expected_tensor_spec template) transforms →
  CombinedDataset.assert_loop template transforms = Ok ().
Proof.
  induction 1 as [|tr rest Heq _ IH]; simpl; [reflexivity|].
  rewrite decide_True by exact Heq. exact IH.
Qed.

Lemma assert_loop_raise (template : Transform) (transforms : list Transform) :
  Exists (λ tr, CombinedDataset.expected_tensor_spec tr ≠
                CombinedDataset.expected_tensor_spec template) transforms →
  CombinedDataset.assert_loop template transforms = Raise AssertionError.
Proof.
  induction transforms as [|tr rest IH]; intros Hex; simpl.
  - inversion Hex.
  - destruct (decide _) as [Heq|Hne]; [|reflexivity].
    apply IH. inversion Hex; subst; [contradiction | assumption].
Qed.

(** The constructor, with its two loops over the hard-coded lists run. *)
Lemma init_run (time_sequence_length : nat) :
  let toto :=
    build_dataset "toto" "gs://gresearch/robotics/toto/0.1.0"
      time_sequence_length in
  let bridge :=
    build_dataset "bridge" "gs://gresearch/robotics/bridge/0.1.0"
      time_sequence_length in
  CombinedDataset.__init__ build_dataset sample_from_datasets_iter
    time_sequence_length =
  (_ ← CombinedDataset.assert_loop toto.2 [toto.2; bridge.2];
   Ok {| CombinedDataset.combined_dataset_it :=
           sample_from_datasets_iter [toto.1; bridge.1] |}).
Proof. reflexivity. Qed.

(** C2. Construction raises if and only if the expected tensor spec of
    some source differs from that of the first source, and then it is
    the assertion that fails; when all sources share the spec,
    construction succeeds and the stream samples from exactly the
    datasets that were built. *)
Theorem init_fails_iff_spec_mismatch (time_sequence_length : nat) :
  let sources :=
    [build_dataset "toto" "gs://gresearch/robotics/toto/0.1.0"
       time_sequence_length;
     build_dataset "bridge" "gs://gresearch/robotics/bridge/0.1.0"
       time_sequence_length] in
  let mismatch :=
    ∃ first tr, sources.*2 !! 0 = Some first ∧ tr ∈ sources.*2 ∧
                CombinedDataset.expected_tensor_spec tr ≠
                CombinedDataset.expected_tensor_spec first in
  let outcome :=
    CombinedDataset.__init__ build_dataset sample_from_datasets_iter
      time_sequence_length in
  ((∃ e, outcome = Raise e) ↔ mismatch) ∧
  (mismatch → outcome = Raise AssertionError) ∧
  (¬ mismatch →
   outcome = Ok {| CombinedDataset.combined_dataset_it :=
                     sample_from_datasets_iter sources.*1 |}).
Proof.
  intros sources mismatch outcome.
  set (first := build_dataset "toto" "gs://gresearch/robotics/toto/0.1.0"
                  time_sequence_length) in *.
  pose proof (init_run time_sequence_length) as Hrun. cbv zeta in Hrun.
  fold first in Hrun.
  assert (mismatch → outcome = Raise AssertionError) as Hbad.
  { intros (first' & tr & Hfirst & Hin & Hne).
    injection Hfirst as <-. subst outcome. rewrite Hrun.
    rewrite assert_loop_raise; [reflexivity|].
    apply Exists_exists. exists tr. split; [exact Hin | exact Hne]. }
  assert (Forall (λ tr, CombinedDataset.expected_tensor_spec tr =
                        CombinedDataset.expected_tensor_spec first.2)
            sources.*2 →
          outcome = Ok {| CombinedDataset.combined_dataset_it :=
                            sample_from_datasets_iter sources.*1 |}) as Hgood.
  { intros Hall. subst outcome. rewrite Hrun.
    rewrite assert_loop_ok; [reflexivity | exact Hall]. }
  assert (¬ Forall (λ tr, CombinedDataset.expected_tensor_spec tr =
                          CombinedDataset.expected_tensor_spec first.2)
              sources.*2 → mismatch) as Hsome.
  { intros Hnall. apply not_Forall_Exists in Hnall; [|intros tr; apply _].
    apply Exists_exists in Hnall as (tr & Hin & Hne).
    exists first.2, tr. split; [reflexivity|]. split; [exact Hin | exact Hne]. }
  split_and!.
  - split.
    + intros [e He]. destruct (decide (Forall (λ tr,
        CombinedDataset.expected_tensor_spec tr =
        CombinedDataset.expected_tensor_spec first.2) sources.*2))
        as [Hall|Hnall]; [|exact (Hsome Hnall)].
      rewrite (Hgood Hall) in He. discriminate.
    + intros Hm. exists AssertionError. exact (Hbad Hm).
  - exact Hbad.
  - intros Hno. apply Hgood.
    destruct (decide (Forall (λ tr,
        CombinedDataset.expected_tensor_spec tr =
        CombinedDataset.expected_tensor_spec first.2) sources.*2))
        as [Hall|Hnall]; [exact Hall|].
    destruct (Hno (Hsome Hnall)).
Qed.


(** C10. Whatever the [time_sequence_length] (the only constructor
    argument) and whatever [build_dataset] does, [__init__] makes
    exactly two [build_dataset] calls, for 'toto' and 'bridge' at their
    fixed builder directories; it then checks the two transforms and
    samples from exactly these two datasets. *)
Theorem init_builds_toto_and_bridge (time_sequence_length : nat) :
  let toto :=
    build_dataset "toto" "gs://gresearch/robotics/toto/0.1.0"
      time_sequence_length in
  let bridge :=
    build_dataset "bridge" "gs://gresearch/robotics/bridge/0.1.0"
      time_sequence_length in
  CombinedDataset.build_loop build_dataset time_sequence_length 0
    CombinedDataset.builder_dir_list = Ok [toto; bridge] ∧
  CombinedDataset.__init__ build_dataset sample_from_datasets_iter
    time_sequence_length =
  (_ ← CombinedDataset.assert_loop toto.2 [toto.2; bridge.2];
   Ok {| CombinedDataset.combined_dataset_it :=
           sample_from_datasets_iter [toto.1; bridge.1] |}).
Proof.
  intros toto bridge. split; [reflexivity|].
  exact (init_run time_sequence_length).
Qed.

End CombinedDatasetFacts.

(** ** Tensor indexing and retrieve_single_timestep *)

Section TorchFacts.

Context {A : Type}.
Implicit Types (v : torch.Tensor A) (sh index : list nat).

Lemma ravel_lt sh index off :
  torch.ravel sh index = Some off → off < foldr Nat.mul 1 sh.
Proof.
  revert index off. induction sh as [|d sh IH]; intros [|i index] off; simpl;
    try discriminate.
  - intros [= <-]. lia.
  - destruct (decide (i < d)) as [Hi|]; [|discriminate].
    destruct (torch.ravel sh index) as [off'|] eqn:Hoff; [|discriminate].
    simpl. intros [= <-]. specialize (IH _ _ Hoff). nia.
Qed.

(** Reading inside a concatenation of equally long blocks. *)
Lemma lookup_concat_blocks (f : nat → list A) (m start n b o : nat) :
  (∀ b', start ≤ b' < start + n → length (f b') = m) → b < n → o < m →
  concat (f <$> seq start n) !! (b * m + o) = f (start + b) !! o.
Proof.
  revert start b. induction n as [|n IH]; intros start b Hlen Hb Ho; [lia|].
  simpl. destruct b as [|b].
  - rewrite lookup_app_l by (rewrite Hlen; lia).
    simpl. by rewrite Nat.add_0_r.
  - rewrite lookup_app_r by (rewrite Hlen; lia).
    rewrite Hlen by lia. replace (S b * m + o - m) with (b * m + o) by lia.
    rewrite IH; [|intros b' Hb'; apply Hlen; lia|lia|lia].
    by replace (S start + b) with (start + S b) by lia.
Qed.

(** [v[:, i]] on a tensor with a time axis of length [T]: the time axis
    is removed, the other axes are kept, and the element at [(b, r...)]
    is the element of [v] at [(b, i, r...)]. *)
Lemma select_dim1_spec v (d0 T : nat) (rest : list nat) (i : Z) :
  torch.well_formed v →
  torch.shape v = d0 :: T :: rest →
  (0 ≤ i < Z.of_nat T)%Z →
  ∃ v', torch.select_dim1 v i = Ok v' ∧
        torch.shape v' = d0 :: rest ∧
        torch.well_formed v' ∧
        ∀ b r, torch.item v' (b :: r) = torch.item v (b :: Z.to_nat i :: r).
Proof.
  intros Hwf Hshape Hi. unfold torch.select_dim1. rewrite Hshape.
  unfold torch.normalize_index. rewrite decide_True by exact Hi. simpl.
  set (inner := foldr Nat.mul 1 rest).
  set (n := Z.to_nat i). assert (n < T) as Hn by lia.
  unfold torch.well_formed in Hwf. rewrite Hshape in Hwf. simpl in Hwf.
  fold inner in Hwf.
  set (block := λ b, take inner (drop ((b * T + n) * inner) (torch.data v))).
  assert (∀ b, b < d0 → length (block b) = inner) as Hblock.
  { intros b Hb. unfold block. rewrite length_take_le; [done|].
    rewrite length_drop, Hwf.
    assert (b * T + n + 1 ≤ d0 * T)%nat as Hle by nia.
    apply (Nat.mul_le_mono_r _ _ inner) in Hle. lia. }
  eexists. split; [reflexivity|]. split; [reflexivity|].
  split.
  - unfold torch.well_formed. simpl. fold inner.
    rewrite length_concat.
    assert (∀ s k, s + k ≤ d0 →
              list_sum (map length (block <$> seq s k)) = k * inner) as Hsum.
    { intros s k. revert s. induction k as [|k IH]; intros s Hs; [done|].
      simpl. rewrite Hblock by lia. rewrite IH by lia. lia. }
    rewrite (Hsum 0 d0) by lia. done.
  - intros b r. unfold torch.item. simpl. rewrite Hshape. simpl.
    destruct (decide (b < d0)) as [Hb|]; [|done].
    rewrite decide_True by exact Hn. fold inner.
    destruct (torch.ravel rest r) as [off|] eqn:Hoff; [|done]. simpl.
    pose proof (ravel_lt _ _ _ Hoff) as Hlt. fold inner in Hlt.
    rewrite (lookup_concat_blocks block inner 0 d0 b off);
      [|intros b' Hb'; apply Hblock; lia|lia|lia].
    simpl. unfold block.
    rewrite lookup_take_lt by exact Hlt. rewrite lookup_drop.
    f_equal. nia.
Qed.

(** The loop of [retrieve_single_timestep] started from any dictionary:
    the keys it visits are overwritten with [v[:, i]], the others kept. *)
Lemma retrieve_loop (m acc0 : gmap string (torch.Tensor A)) (i : Z) :
  (∀ k v, m !! k = Some v → ∃ v', torch.select_dim1 v i = Ok v') →
  ∃ out,
    map_fold (λ k v acc,
                dict_obj_return ← acc;
                x ← torch.select_dim1 v i;
                Ok (<[k := x]> dict_obj_return)) (Ok acc0) m = Ok out ∧
    ∀ k, out !! k = match m !! k with
                    | Some v => match torch.select_dim1 v i with
                                | Ok v' => Some v'
                                | Raise _ => None
                                end
                    | None => acc0 !! k
                    end.
Proof.
  apply (map_fold_weak_ind (λ r m,
    (∀ k v, m !! k = Some v → ∃ v', torch.select_dim1 v i = Ok v') →
    ∃ out, r = Ok out ∧
      ∀ k, out !! k = match m !! k with
                      | Some v => match torch.select_dim1 v i with
                                  | Ok v' => Some v'
                                  | Raise _ => None
                                  end
                      | None => acc0 !! k
                      end)).
  - intros _. exists acc0. split; [reflexivity|]. intros k.
    by rewrite lookup_empty.
  - intros j x m' r Hfresh IH Hall.
    destruct IH as (out & -> & Hout).
    { intros k v Hk. apply (Hall k v).
      rewrite lookup_insert_ne; [exact Hk|]. intros ->. congruence. }
    destruct (Hall j x) as [x' Hx']; [by rewrite lookup_insert_eq|].
    exists (<[j := x']> out). split.
    + simpl. rewrite Hx'. reflexivity.
    + intros k. destruct (decide (j = k)) as [->|Hne].
      * rewrite !lookup_insert_eq, Hx'. reflexivity.
      * rewrite !lookup_insert_ne by exact Hne. apply Hout.
Qed.

(** C8. On a dictionary whose tensors all have a second axis of length
    [T], and for every index [i] in [0, T), [retrieve_single_timestep]
    returns a dictionary with the same keys in which every value [v] is
    replaced by [v[:, i]]: its shape is that of [v] without the time
    axis, and its element at [(b, r...)] is the element of [v] at
    [(b, i, r...)]. *)
Theorem retrieve_single_timestep_spec
    (dict_obj : gmap string (torch.Tensor A)) (T : nat) (i : Z) :
  (∀ k v, dict_obj !! k = Some v →
          torch.well_formed v ∧
          ∃ d0 rest, torch.shape v = d0 :: T :: rest) →
  (0 ≤ i < Z.of_nat T)%Z →
  ∃ out,
    Trainer.retrieve_single_timestep dict_obj i = Ok out ∧
    dom out = dom dict_obj ∧
    ∀ k v, dict_obj !! k = Some v →
      ∃ v', out !! k = Some v' ∧
            torch.select_dim1 v i = Ok v' ∧
            (∀ d0 rest, torch.shape v = d0 :: T :: rest →
                        torch.shape v' = d0 :: rest) ∧
            ∀ b r, torch.item v' (b :: r) = torch.item v (b :: Z.to_nat i :: r).
Proof.
  intros Hvals Hi.
  assert (∀ k v, dict_obj !! k = Some v →
            ∃ v', torch.select_dim1 v i = Ok v') as Hsel.
  { intros k v Hk. destruct (Hvals k v Hk) as (Hwf & d0 & rest & Hshape).
    destruct (select_dim1_spec v d0 T rest i Hwf Hshape Hi) as (v' & Hv' & _).
    by exists v'. }
  destruct (retrieve_loop dict_obj dict_obj i Hsel) as (out & Hrun & Hout).
  exists out. split; [exact Hrun|]. split.
  - apply set_eq. intros k. rewrite !elem_of_dom, Hout.
    destruct (dict_obj !! k) as [v|] eqn:Hk; [|done].
    destruct (Hsel k v Hk) as [v' ->]. split; eauto.
  - intros k v Hk. destruct (Hvals k v Hk) as (Hwf & d0 & rest & Hshape).
    destruct (select_dim1_spec v d0 T rest i Hwf Hshape Hi)
      as (v' & Hv' & Hshape' & _ & Hitem).
    exists v'. rewrite Hout, Hk, Hv'. split_and!; try done.
    intros d0' rest' Hshape2. rewrite Hshape in Hshape2.
    injection Hshape2 as <- <-. exact Hshape'.
Qed.

End TorchFacts.

Example retrieve_single_timestep_sample :
  Trainer.retrieve_single_timestep sample_batch 1 =
    Ok (<["image" := torch.mkTensor [2; 2] [2; 3; 8; 9]]>
        (<["natural_language_embedding" := torch.mkTensor [2] [101; 104]]> ∅)).
Proof. vm_compute. reflexivity. Qed.

Lemma sample_batch_time_axis (k : string) (v : torch.Tensor nat) :
  sample_batch !! k = Some v →
  torch.well_formed v ∧ ∃ d0 rest, torch.shape v = d0 :: 3 :: rest.
Proof.
  unfold sample_batch. intros Hk.
  apply lookup_insert_Some in Hk as [[_ <-]|[_ Hk]].
  { split; [reflexivity|]. by exists 2, [2]. }
  apply lookup_insert_Some in Hk as [[_ <-]|[_ Hk]].
  { split; [reflexivity|]. by exists 2, []. }
  by rewrite lookup_empty in Hk.
Qed.

Lemma retrieve_single_timestep_spec_witness :
  ∃ out,
    Trainer.retrieve_single_timestep sample_batch 1 = Ok out ∧
    dom out = dom sample_batch ∧
    ∀ k v, sample_batch !! k = Some v →
      ∃ v', out !! k = Some v' ∧
            torch.select_dim1 v 1 = Ok v' ∧
            (∀ d0 rest, torch.shape v = d0 :: 3 :: rest →
                        torch.shape v' = d0 :: rest) ∧
            ∀ b r, torch.item v' (b :: r) = torch.item v (b :: Z.to_nat 1 :: r).
Proof.
  apply (retrieve_single_timestep_spec sample_batch 3 1).
  - exact sample_batch_time_axis.
  - lia.
Defined.

(** ** Paths *)

Lemma string_app_cons (c : ascii) (s t : string) :
  String c s +:+ t = String c (s +:+ t).
Proof. reflexivity. Qed.

Lemma string_app_assoc (s t u : string) : (s +:+ t) +:+ u = s +:+ t +:+ u.
Proof.
  induction s as [|c s IH]; [done|]. rewrite !string_app_cons. by rewrite IH.
Qed.

Lemma startswith_sep_app (s t : string) :
  s ≠ "" → startswith_sep (s +:+ t) = startswith_sep s.
Proof. by destruct s. Qed.

Lemma endswith_sep_app (s t : string) :
  t ≠ "" → endswith_sep (s +:+ t) = endswith_sep t.
Proof.
  intros Ht. induction s as [|c s IH]; [done|].
  rewrite string_app_cons. simpl. rewrite IH.
  destruct (s +:+ t) eqn:Hst; [|done].
  destruct s; [done|]. by rewrite string_app_cons in Hst.
Qed.

(** Rendering a positive number never starts with the separator. *)
Lemma pretty_N_go_head (x : N) (s : string) :
  (0 < x)%N →
  ∃ c s', pretty_N_go x s = String c s' ∧ c ≠ "/"%char.
Proof.
  revert s. induction (N.lt_wf_0 x) as [x _ IH]; intros s Hx.
  rewrite pretty_N_go_step by done.
  destruct (N.eq_0_gt_0_cases (x `div` 10)) as [Hq|Hq].
  - rewrite Hq, pretty_N_go_0. eexists _, _. split; [done|].
    unfold pretty_N_char. by repeat case_match.
  - apply IH; [|done]. apply N.div_lt; lia.
Qed.

Lemma pretty_Z_head (e : Z) :
  ∃ c s', pretty e = String c s' ∧ c ≠ "/"%char.
Proof.
  destruct e as [|p|p]; unfold pretty, pretty_Z.
  - by eexists _, _.
  - unfold pretty, pretty_positive, pretty, pretty_N.
    rewrite decide_False by done. apply pretty_N_go_head. lia.
  - by eexists _, _.
Qed.

Lemma checkpoint_file_relative (e : Z) :
  startswith_sep (pretty e +:+ "-checkpoint.pth") = false.
Proof.
  destruct (pretty_Z_head e) as (c & s' & -> & Hc). simpl.
  by apply bool_decide_eq_false.
Qed.

Lemma os_path_join_plain (a b : string) :
  a ≠ "" → endswith_sep a = false → startswith_sep b = false →
  os_path_join a b = a +:+ "/" +:+ b.
Proof.
  intros Ha Hend Hstart. unfold os_path_join. rewrite Hstart, Hend.
  by rewrite bool_decide_eq_false_2.
Qed.

(** The checkpoint file of epoch [e] for a plain log directory and run
    identifier. *)
Lemma checkpoint_path_plain (log_dir run_id : string) (e : Z) :
  log_dir ≠ "" → endswith_sep log_dir = false →
  run_id ≠ "" → startswith_sep run_id = false → endswith_sep run_id = false →
  os_path_join (os_path_join log_dir run_id) (pretty e +:+ "-checkpoint.pth") =
    log_dir +:+ "/" +:+ run_id +:+ "/" +:+ pretty e +:+ "-checkpoint.pth".
Proof.
  intros Hl Hlend Hr Hrstart Hrend.
  rewrite (os_path_join_plain log_dir run_id) by done.
  rewrite os_path_join_plain.
  - by rewrite !string_app_assoc.
  - destruct log_dir; done.
  - destruct run_id as [|c r]; [done|].
    rewrite endswith_sep_app by done.
    change ("/" +:+ String c r) with (String "/" (String c r)).
    exact Hrend.
  - apply checkpoint_file_relative.
Qed.

(** ** Reading training traces *)

Section TraceFacts.

Context {NetworkState OptimizerState SchedulerState Float : Type}.

Local Abbreviation Event :=
  (@Trainer.event NetworkState OptimizerState SchedulerState Float).

Local Abbreviation Checkpoint :=
  (gmap string (@Trainer.CheckpointValue NetworkState OptimizerState SchedulerState)).

Implicit Types (tr scalars : list (Z * Event)) (es : list Z) (ck : Checkpoint).

Lemma scalars_epochs_entered (e : Z) scalars :
  Forall (is_add_scalar e) scalars → Trainer.epochs_entered scalars = [].
Proof.
  induction 1 as [|[e' ev] l (_ & tag & n & x & Hev) _ IH]; [done|].
  simpl in Hev. subst ev. exact IH.
Qed.

Lemma scalars_saves (e : Z) scalars :
  Forall (is_add_scalar e) scalars → Trainer.saves scalars = [].
Proof.
  induction 1 as [|[e' ev] l (_ & tag & n & x & Hev) _ IH]; [done|].
  simpl in Hev. subst ev. exact IH.
Qed.

Lemma checkpoint_events_entered (self : Trainer.t) (m : bool) (e : Z) ck :
  Trainer.epochs_entered (checkpoint_events (Float := Float) self m e ck) = [].
Proof.
  unfold checkpoint_events.
  by destruct m, (Trainer.distributed (Trainer.args self)).
Qed.

Lemma checkpoint_events_saves (self : Trainer.t) (m : bool) (e : Z) ck :
  Trainer.saves (checkpoint_events (Float := Float) self m e ck) =
    if m then [(e, (ck, checkpoint_filename self e))] else [].
Proof.
  unfold checkpoint_events.
  by destruct m, (Trainer.distributed (Trainer.args self)).
Qed.

Lemma epoch_trace_entered (self : Trainer.t) (m : bool) (e : Z) tr :
  epoch_trace_of self m e tr → Trainer.epochs_entered tr = [e].
Proof.
  intros (scalars & ck & -> & Hscalars & _).
  unfold Trainer.epochs_entered. rewrite !omap_app.
  fold (Trainer.epochs_entered scalars).
  rewrite (scalars_epochs_entered e scalars Hscalars). simpl.
  destruct (decide (checkpoint_epoch self e)); [|done].
  f_equal. apply checkpoint_events_entered.
Qed.

Lemma trace_shape_entered (self : Trainer.t) (m : bool) es tr :
  trace_shape self m es tr → Trainer.epochs_entered tr = es.
Proof.
  intros (trs & -> & Hall).
  induction Hall as [|e tr1 es trs H1 _ IH]; [done|].
  simpl. pose proof (epoch_trace_entered self m e tr1 H1) as He.
  unfold Trainer.epochs_entered in *. by rewrite omap_app, IH, He.
Qed.

Lemma epoch_trace_saves (self : Trainer.t) (m : bool) (e : Z) tr :
  epoch_trace_of self m e tr →
  ∃ ck,
    Trainer.saves tr =
      (if decide (checkpoint_epoch self e)
       then if m then [(e, (ck, checkpoint_filename self e))] else []
       else []) ∧
    good_save self (e, (ck, checkpoint_filename self e)).
Proof.
  intros (scalars & ck & -> & Hscalars & _ & Hdom & Hep).
  exists ck. split; [|done].
  unfold Trainer.saves. rewrite !omap_app.
  fold (Trainer.saves scalars). rewrite (scalars_saves e scalars Hscalars).
  simpl. destruct (decide (checkpoint_epoch self e)); [|done].
  apply checkpoint_events_saves.
Qed.

Lemma trace_shape_saves (self : Trainer.t) (m : bool) es tr :
  trace_shape self m es tr →
  (Trainer.saves tr).*1 = (if m then filter (checkpoint_epoch self) es else []) ∧
  Forall (good_save self) (Trainer.saves tr).
Proof.
  intros (trs & -> & Hall).
  induction Hall as [|e tr1 es trs H1 _ [IH1 IH2]].
  { by destruct m. }
  simpl. unfold Trainer.saves in *. rewrite omap_app, fmap_app, IH1.
  destruct (epoch_trace_saves self m e tr1 H1) as (ck & Hs & Hgood).
  unfold Trainer.saves in Hs. rewrite Hs. split.
  - destruct (decide (checkpoint_epoch self e)) as [Hck|Hck], m; simpl;
      rewrite ?IH1; try done.
    + by rewrite filter_cons_True.
    + by rewrite filter_cons_False.
  - apply Forall_app. split; [|exact IH2].
    destruct (decide (checkpoint_epoch self e)), m;
      first [by apply Forall_nil | by apply Forall_singleton].
Qed.

End TraceFacts.

(** ** The training loop *)

Section TrainerFacts.

Context {Network Optimizer Scheduler : Type}.
Context {NetworkState OptimizerState SchedulerState : Type}.
Context {Batch Float : Type}.
Context `{!Trainer.Stateful Network NetworkState}.
Context `{!Trainer.Stateful Optimizer OptimizerState}.
Context `{!Trainer.Stateful Scheduler SchedulerState}.

Variable is_main_process : bool.
Variable files :
  gmap string
    (gmap string (@Trainer.CheckpointValue NetworkState OptimizerState SchedulerState)).
Variable TransformerNetwork : Network.
Variable AdamW : Network → Optimizer.
Variable CosineAnnealingWarmRestarts : Optimizer → Scheduler * Optimizer.
Variable training_step : Network → Optimizer → Batch → Network * Optimizer * Float.
Variable scheduler_step : Scheduler → Optimizer → Scheduler * Optimizer.
Variable lr : Optimizer → Float.
Variable train_dataloader : Z → list Batch.

Local Abbreviation train_batch :=
  (Trainer.train_batch is_main_process training_step lr).
Local Abbreviation checkpoint_step := (Trainer.checkpoint_step is_main_process).
Local Abbreviation train_epoch :=
  (Trainer.train_epoch is_main_process training_step scheduler_step lr
     train_dataloader).
Local Abbreviation setup :=
  (Trainer.setup TransformerNetwork AdamW CosineAnnealingWarmRestarts).
Local Abbreviation train :=
  (Trainer.train is_main_process files TransformerNetwork AdamW
     CosineAnnealingWarmRestarts training_step scheduler_step lr
     train_dataloader).
Local Abbreviation State :=
  (@Trainer.State Network Optimizer Scheduler NetworkState OptimizerState
     SchedulerState Float).

Lemma train_batch_trace (e : Z) (st : State) (item : Batch) :
  ∃ scalars,
    Trainer.trace (train_batch e st item) = Trainer.trace st ++ scalars ∧
    Forall (is_add_scalar e) scalars ∧
    (is_main_process = false → scalars = []).
Proof.
  unfold Trainer.train_batch.
  destruct (training_step _ _ item) as [[network' optimizer'] loss].
  destruct is_main_process; simpl.
  - eexists. split; [reflexivity|]. split; [|discriminate].
    repeat constructor; simpl; eauto.
  - exists []. by rewrite app_nil_r.
Qed.

Lemma train_batches_trace (e : Z) (items : list Batch) (st : State) :
  ∃ scalars,
    Trainer.trace (foldl (train_batch e) st items) = Trainer.trace st ++ scalars ∧
    Forall (is_add_scalar e) scalars ∧
    (is_main_process = false → scalars = []).
Proof.
  revert st. induction items as [|item items IH]; intros st; simpl.
  - exists []. by rewrite app_nil_r.
  - destruct (train_batch_trace e st item) as (s1 & Ht1 & Hs1 & Hn1).
    destruct (IH (train_batch e st item)) as (s2 & Ht2 & Hs2 & Hn2).
    exists (s1 ++ s2). rewrite Ht2, Ht1, app_assoc. split; [done|].
    split; [by apply Forall_app|].
    intros Hm. by rewrite Hn1, Hn2.
Qed.

Lemma make_checkpoint_keys (a : Trainer.Args) (st : State) (e : Z) :
  dom (Trainer.make_checkpoint a st e) = checkpoint_keys ∧
  Trainer.make_checkpoint a st e !! "epoch" = Some (Trainer.Int e).
Proof.
  unfold Trainer.make_checkpoint, checkpoint_keys. split; [|reflexivity].
  rewrite !dom_insert_L, dom_empty_L. set_solver.
Qed.

Lemma checkpoint_step_trace (self : Trainer.t) (e : Z) (st : State) :
  Trainer.trace (checkpoint_step self e st) =
    Trainer.trace st ++
    checkpoint_events self is_main_process e
      (Trainer.make_checkpoint (Trainer.args self) st e).
Proof.
  unfold Trainer.checkpoint_step, Trainer.save_on_master, checkpoint_events,
    checkpoint_filename.
  destruct is_main_process, (Trainer.distributed (Trainer.args self)); simpl;
    rewrite ?app_nil_r, <- ?app_assoc; reflexivity.
Qed.

(** One epoch never fails when [val_interval] is not zero, and records
    an epoch trace. *)
Lemma train_epoch_trace (self : Trainer.t) (st : State) (e : Z) :
  Trainer.val_interval (Trainer.args self) ≠ 0%Z →
  ∃ st' tr,
    train_epoch self st e = Ok st' ∧
    Trainer.trace st' = Trainer.trace st ++ tr ∧
    epoch_trace_of self is_main_process e tr.
Proof.
  intros Hvi. unfold Trainer.train_epoch.
  rewrite decide_False by exact Hvi.
  set (st1 := Trainer.emit e [Trainer.NetworkTrain] st).
  destruct (train_batches_trace e (train_dataloader e) st1)
    as (scalars & Htr & Hscalars & Hnone).
  set (st2 := foldl (train_batch e) st1 (train_dataloader e)) in *.
  unfold checkpoint_epoch. fold (checkpoint_epoch self e).
  destruct (decide (checkpoint_epoch self e)) as [Hck|Hck].
  - destruct (scheduler_step _ _) as [scheduler' optimizer'].
    eexists _, _. split; [reflexivity|]. cbn [Trainer.trace].
    rewrite checkpoint_step_trace, Htr. subst st1. simpl.
    rewrite <- !app_assoc. split; [reflexivity|].
    destruct (make_checkpoint_keys (Trainer.args self) st2 e) as [Hdom Hep].
    exists scalars, (Trainer.make_checkpoint (Trainer.args self) st2 e).
    rewrite decide_True by exact Hck. done.
  - destruct (scheduler_step _ _) as [scheduler' optimizer'].
    eexists _, _. split; [reflexivity|]. cbn [Trainer.trace].
    rewrite Htr. subst st1. simpl.
    rewrite <- !app_assoc. split; [reflexivity|].
    destruct (make_checkpoint_keys (Trainer.args self) st2 e) as [Hdom Hep].
    exists scalars, (Trainer.make_checkpoint (Trainer.args self) st2 e).
    rewrite decide_False by exact Hck. rewrite app_nil_r. done.
Qed.

Lemma train_loop_trace (self : Trainer.t) (es : list Z) (st : State) :
  Trainer.val_interval (Trainer.args self) ≠ 0%Z →
  ∃ st' tr,
    for_loop (train_epoch self) st es = Ok st' ∧
    Trainer.trace st' = Trainer.trace st ++ tr ∧
    trace_shape self is_main_process es tr.
Proof.
  intros Hvi. revert st. induction es as [|e es IH]; intros st; simpl.
  - exists st, []. rewrite app_nil_r. split_and!; try done.
    exists []. split; [done|constructor].
  - destruct (train_epoch_trace self st e Hvi) as (st1 & tr1 & -> & Htr1 & Hshape1).
    simpl. destruct (IH st1) as (st2 & tr2 & -> & Htr2 & trs & -> & Hall).
    exists st2, (tr1 ++ concat trs). rewrite Htr2, Htr1, app_assoc.
    split_and!; try done.
    exists (tr1 :: trs). split; [done|by constructor].
Qed.

Lemma train_run (self : Trainer.t) (start : Z) :
  Trainer.val_interval (Trainer.args self) ≠ 0%Z →
  starts_at self files start →
  ∃ st,
    train self = Ok st ∧
    trace_shape self is_main_process
      (range start (Trainer.epochs (Trainer.args self))) (Trainer.trace st).
Proof.
  intros Hvi Hstart. unfold Trainer.train.
  destruct Hstart as [[Hres ->]|(Hres & ck & Hfile & m & o & s & Hm & Ho & Hs & He)];
    rewrite Hres; simpl.
  - unfold Trainer.setup.
    destruct (CosineAnnealingWarmRestarts _) as [scheduler optimizer].
    simpl.
    match goal with |- context [for_loop _ ?st0 _] =>
      destruct (train_loop_trace self
                  (range 0 (Trainer.epochs (Trainer.args self))) st0 Hvi)
        as (st' & tr & Hrun & Htr & Hshape) end.
    exists st'. split; [exact Hrun|]. rewrite Htr. exact Hshape.
  - rewrite Hfile. simpl. unfold Trainer.setup.
    destruct (CosineAnnealingWarmRestarts _) as [scheduler optimizer].
    unfold Trainer.load_checkpoint, Trainer.checkpoint_model,
      Trainer.checkpoint_optimizer, Trainer.checkpoint_scheduler,
      Trainer.checkpoint_epoch.
    rewrite Hm, Ho, Hs, He. simpl.
    match goal with |- context [for_loop _ ?st0 _] =>
      destruct (train_loop_trace self
                  (range start (Trainer.epochs (Trainer.args self))) st0 Hvi)
        as (st' & tr & Hrun & Htr & Hshape) end.
    exists st'. split; [exact Hrun|]. rewrite Htr. exact Hshape.
Qed.

Lemma elem_of_range (start stop e : Z) :
  e ∈ range start stop ↔ (start ≤ e < stop)%Z.
Proof. unfold range. rewrite elem_of_seqZ. lia. Qed.

(** C6. A run of [train] (with a non-zero [val_interval]) enters the
    epochs of [range(epoch_start, epochs)] in order and nothing else:
    without resume it starts at epoch 0, with resume at the epoch stored
    in the loaded checkpoint, and in both cases it ends after the last
    epoch below [args["epochs"]]. *)
Theorem train_epoch_range (self : Trainer.t) :
  Trainer.val_interval (Trainer.args self) ≠ 0%Z →
  (Trainer.resume (Trainer.args self) = false →
   ∃ st, train self = Ok st ∧
         Trainer.epochs_entered (Trainer.trace st) =
           range 0 (Trainer.epochs (Trainer.args self)) ∧
         ∀ e, e ∈ Trainer.epochs_entered (Trainer.trace st) ↔
              (0 ≤ e < Trainer.epochs (Trainer.args self))%Z) ∧
  (∀ ck E,
     Trainer.resume (Trainer.args self) = true →
     files !! Trainer.resume_from_checkpoint (Trainer.args self) = Some ck →
     resumable ck E →
     ∃ st, train self = Ok st ∧
           Trainer.epochs_entered (Trainer.trace st) =
             range E (Trainer.epochs (Trainer.args self)) ∧
           ∀ e, e ∈ Trainer.epochs_entered (Trainer.trace st) ↔
                (E ≤ e < Trainer.epochs (Trainer.args self))%Z).
Proof.
  intros Hvi.
  assert (∀ start, starts_at self files start →
            ∃ st, train self = Ok st ∧
                  Trainer.epochs_entered (Trainer.trace st) =
                    range start (Trainer.epochs (Trainer.args self)) ∧
                  ∀ e, e ∈ Trainer.epochs_entered (Trainer.trace st) ↔
                       (start ≤ e < Trainer.epochs (Trainer.args self))%Z)
    as Hrun.
  { intros start Hstart.
    destruct (train_run self start Hvi Hstart) as (st & Hst & Hshape).
    exists st. split; [exact Hst|].
    rewrite (trace_shape_entered _ _ _ _ Hshape). split; [done|].
    intros e. apply elem_of_range. }
  split.
  - intros Hres. apply Hrun. left. done.
  - intros ck E Hres Hfile Hck. apply Hrun. right. eauto.
Qed.

(** C5. In a run of [Trainer(args).train()] (with a non-zero
    [val_interval]) the main process writes one checkpoint for each epoch
    [e] of the run with [(e + 1) % val_interval == 0], in order, and no
    other; a process that is not the main one writes none.  Every bundle
    written has exactly the keys model_state_dict, optimizer_state_dict,
    scheduler_state_dict and epoch, with [e] under epoch, and is written
    to [os.path.join(os.path.join(log_dir, run_id), str(e) +
    "-checkpoint.pth")], which for a plain log directory and run
    identifier is the string <log_dir>/<run_id>/<e>-checkpoint.pth. *)
Theorem train_checkpoints (a : Trainer.Args) (now : string) (start : Z) :
  Trainer.val_interval a ≠ 0%Z →
  starts_at (Trainer.__init__ a now) files start →
  ∃ st,
    train (Trainer.__init__ a now) = Ok st ∧
    (Trainer.saves (Trainer.trace st)).*1 =
      (if is_main_process
       then filter (λ e, ((e + 1) `mod` Trainer.val_interval a)%Z = 0%Z)
              (range start (Trainer.epochs a))
       else []) ∧
    Forall (λ x : Z * (gmap string Trainer.CheckpointValue * string),
              let e := x.1 in
              let run_id := Trainer.train_name (Trainer.__init__ a now) in
              dom x.2.1 = {[ "model_state_dict"; "optimizer_state_dict";
                             "scheduler_state_dict"; "epoch" ]} ∧
              x.2.1 !! "epoch" = Some (Trainer.Int e) ∧
              x.2.2 = os_path_join (os_path_join (Trainer.log_dir a) run_id)
                        (pretty e +:+ "-checkpoint.pth") ∧
              (Trainer.log_dir a ≠ "" → endswith_sep (Trainer.log_dir a) = false →
               run_id ≠ "" → startswith_sep run_id = false →
               endswith_sep run_id = false →
               x.2.2 = Trainer.log_dir a +:+ "/" +:+ run_id +:+ "/" +:+ pretty e
                       +:+ "-checkpoint.pth"))
      (Trainer.saves (Trainer.trace st)).
Proof.
  intros Hvi Hstart.
  destruct (train_run (Trainer.__init__ a now) start Hvi Hstart)
    as (st & Hst & Hshape).
  exists st. split; [exact Hst|].
  destruct (trace_shape_saves _ _ _ _ Hshape) as [Hepochs Hgood].
  split; [exact Hepochs|].
  eapply Forall_impl; [exact Hgood|].
  intros [e [ck f]] (Hdom & Hep & Hf). simpl in *.
  split; [exact Hdom|]. split; [exact Hep|].
  assert (f = os_path_join
                (os_path_join (Trainer.log_dir a)
                   (Trainer.train_name (Trainer.__init__ a now)))
                (pretty e +:+ "-checkpoint.pth")) as Hpath by exact Hf.
  split; [exact Hpath|].
  intros. rewrite Hpath. by apply checkpoint_path_plain.
Qed.

Lemma for_loop_cons {S X : Type} (body : S → X → result S) (st : S) (x : X)
    (xs : list X) :
  for_loop body st (x :: xs) = body st x ≫= λ st', for_loop body st' xs.
Proof. reflexivity. Qed.

(** A resumed run is the epoch loop started from the loaded state. *)
Lemma train_resumed (self : Trainer.t) (ck : gmap string Trainer.CheckpointValue)
    (m : NetworkState) (o : OptimizerState) (s : SchedulerState) (E : Z) :
  Trainer.resume (Trainer.args self) = true →
  files !! Trainer.resume_from_checkpoint (Trainer.args self) = Some ck →
  ck !! "model_state_dict" = Some (Trainer.NetworkStateDict m) →
  ck !! "optimizer_state_dict" = Some (Trainer.OptimizerStateDict o) →
  ck !! "scheduler_state_dict" = Some (Trainer.SchedulerStateDict s) →
  ck !! "epoch" = Some (Trainer.Int E) →
  train self =
    for_loop (train_epoch self)
      {| Trainer.network := Trainer.load_state_dict TransformerNetwork m;
         Trainer.optimizer :=
           Trainer.load_state_dict
             (CosineAnnealingWarmRestarts (AdamW TransformerNetwork)).2 o;
         Trainer.scheduler :=
           Trainer.load_state_dict
             (CosineAnnealingWarmRestarts (AdamW TransformerNetwork)).1 s;
         Trainer.step_counter := Trainer.train_step self;
         Trainer.trace := [] |}
      (range E (Trainer.epochs (Trainer.args self))).
Proof.
  intros Hres Hfile Hm Ho Hs He.
  unfold Trainer.train, Trainer.setup, Trainer.load_checkpoint,
    Trainer.checkpoint_model, Trainer.checkpoint_optimizer,
    Trainer.checkpoint_scheduler, Trainer.epoch_start, Trainer.checkpoint_epoch.
  rewrite Hres, Hfile.
  destruct (Trainer.distributed (Trainer.args self));
    destruct (CosineAnnealingWarmRestarts (AdamW TransformerNetwork))
      as [scheduler0 optimizer0];
    simpl; rewrite Hm, Ho, Hs; simpl; rewrite He; reflexivity.
Qed.

(** A checkpoint epoch without batches: the network is put in training
    mode, then the checkpoint of the unchanged state is handled. *)
Lemma train_epoch_no_batch (self : Trainer.t) (st : State) (e : Z) :
  Trainer.val_interval (Trainer.args self) ≠ 0%Z →
  checkpoint_epoch self e →
  train_dataloader e = [] →
  ∃ st',
    train_epoch self st e = Ok st' ∧
    Trainer.trace st' =
      Trainer.trace st ++ [(e, Trainer.NetworkTrain)] ++
      checkpoint_events self is_main_process e
        (Trainer.make_checkpoint (Trainer.args self)
           (Trainer.emit e [Trainer.NetworkTrain] st) e).
Proof.
  intros Hvi Hck Hnobatch. unfold Trainer.train_epoch.
  rewrite Hnobatch, decide_False by exact Hvi.
  cbn [foldl]. unfold checkpoint_epoch in Hck.
  rewrite decide_True by exact Hck.
  destruct (scheduler_step _ _) as [scheduler' optimizer'].
  eexists. split; [reflexivity|]. cbn [Trainer.trace].
  rewrite checkpoint_step_trace. simpl. by rewrite <- app_assoc.
Qed.

Lemma saves_app (tr1 tr2 : list (Z * Trainer.event)) :
  Trainer.saves (NetworkState := NetworkState) (OptimizerState := OptimizerState)
    (SchedulerState := SchedulerState) (Float := Float) (tr1 ++ tr2) =
  Trainer.saves tr1 ++ Trainer.saves tr2.
Proof. apply omap_app. Qed.

(** C7. Provided torch's [state_dict] returns what [load_state_dict] has
    just loaded (for the optimizer and for the scheduler): loading a
    checkpoint saved at epoch [E] and building a checkpoint right away
    gives back the optimizer state, the scheduler state and the epoch of
    the loaded checkpoint.  And [train] does exactly this when it
    resumes at a checkpoint epoch [E] whose dataloader yields no batch:
    the first checkpoint the main process writes is the one of epoch
    [E], with the optimizer and scheduler state of the loaded file. *)
Theorem resume_then_checkpoint (self : Trainer.t)
    (ck : gmap string Trainer.CheckpointValue) (E : Z) :
  (∀ (o : Optimizer) (sd : OptimizerState),
     Trainer.state_dict (Trainer.load_state_dict o sd) = sd) →
  (∀ (s : Scheduler) (sd : SchedulerState),
     Trainer.state_dict (Trainer.load_state_dict s sd) = sd) →
  resumable ck E →
  (∀ st0 : State,
     ∃ st,
       Trainer.load_checkpoint ck st0 = Ok st ∧
       Trainer.make_checkpoint (Trainer.args self) st E !! "optimizer_state_dict"
         = ck !! "optimizer_state_dict" ∧
       Trainer.make_checkpoint (Trainer.args self) st E !! "scheduler_state_dict"
         = ck !! "scheduler_state_dict" ∧
       Trainer.make_checkpoint (Trainer.args self) st E !! "epoch"
         = ck !! "epoch") ∧
  (is_main_process = true →
   Trainer.resume (Trainer.args self) = true →
   files !! Trainer.resume_from_checkpoint (Trainer.args self) = Some ck →
   Trainer.val_interval (Trainer.args self) ≠ 0%Z →
   checkpoint_epoch self E →
   (E < Trainer.epochs (Trainer.args self))%Z →
   train_dataloader E = [] →
   ∃ st ck' later,
     train self = Ok st ∧
     Trainer.saves (Trainer.trace st) =
       (E, (ck', checkpoint_filename self E)) :: later ∧
     ck' !! "optimizer_state_dict" = ck !! "optimizer_state_dict" ∧
     ck' !! "scheduler_state_dict" = ck !! "scheduler_state_dict" ∧
     ck' !! "epoch" = ck !! "epoch").
Proof.
  intros Hopt Hsched (m & o & s & Hm & Ho & Hs & He).
  assert (∀ st0 : State,
            Trainer.load_checkpoint ck st0 =
              Ok {| Trainer.network := Trainer.load_state_dict (Trainer.network st0) m;
                    Trainer.optimizer := Trainer.load_state_dict (Trainer.optimizer st0) o;
                    Trainer.scheduler := Trainer.load_state_dict (Trainer.scheduler st0) s;
                    Trainer.step_counter := Trainer.step_counter st0;
                    Trainer.trace := Trainer.trace st0 |}) as Hload.
  { intros st0. unfold Trainer.load_checkpoint, Trainer.checkpoint_model,
      Trainer.checkpoint_optimizer, Trainer.checkpoint_scheduler.
    by rewrite Hm, Ho, Hs. }
  assert (∀ st tr : State,
            Trainer.optimizer st = Trainer.load_state_dict (Trainer.optimizer tr) o →
            Trainer.scheduler st = Trainer.load_state_dict (Trainer.scheduler tr) s →
            Trainer.make_checkpoint (Trainer.args self) st E !! "optimizer_state_dict"
              = ck !! "optimizer_state_dict" ∧
            Trainer.make_checkpoint (Trainer.args self) st E !! "scheduler_state_dict"
              = ck !! "scheduler_state_dict" ∧
            Trainer.make_checkpoint (Trainer.args self) st E !! "epoch"
              = ck !! "epoch") as Hsame.
  { intros st tr Hosame Hssame. unfold Trainer.make_checkpoint.
    rewrite Ho, Hs, He, Hosame, Hssame, Hopt, Hsched. done. }
  split.
  - intros st0. eexists. split; [apply Hload|]. by apply (Hsame _ st0).
  - intros Hmain Hres Hfile Hvi Hck Hlt Hnobatch.
    rewrite (train_resumed self ck m o s E Hres Hfile Hm Ho Hs He).
    unfold range. rewrite seqZ_cons by lia. rewrite for_loop_cons.
    match goal with |- context [train_epoch self ?st0 E] =>
      destruct (train_epoch_no_batch self st0 E Hvi Hck Hnobatch)
        as (st1 & Hep & Htr1); rewrite Hep; set (loaded := st0) in * end.
    unfold mbind, result_bind.
    match goal with |- context [for_loop _ st1 ?es] =>
      destruct (train_loop_trace self es st1 Hvi)
        as (st' & tr & Hrun & Htr & _) end.
    exists st', (Trainer.make_checkpoint (Trainer.args self)
                   (Trainer.emit E [Trainer.NetworkTrain] loaded) E).
    eexists. split; [exact Hrun|]. split.
    + rewrite Htr, Htr1, !saves_app, checkpoint_events_saves, Hmain.
      reflexivity.
    + by apply (Hsame _
        {| Trainer.network := TransformerNetwork;
           Trainer.optimizer :=
             (CosineAnnealingWarmRestarts (AdamW TransformerNetwork)).2;
           Trainer.scheduler :=
             (CosineAnnealingWarmRestarts (AdamW TransformerNetwork)).1;
           Trainer.step_counter := Trainer.train_step self;
           Trainer.trace := [] |}).
Qed.

End TrainerFacts.

(** ** The sample run *)

Example sample_trainer_dirs :
  Trainer.train_name (sample_trainer false) = "1700000000" ∧
  Trainer.checkpoint_dir (sample_trainer false) = "logs/1700000000" ∧
  Trainer.tensorboard_dir (sample_trainer false) =
    "logs/tensorboard_logs/1700000000".
Proof. repeat split. Qed.

Example sample_train_fresh :
  ∃ st, sample_train true false = Ok st ∧
        Trainer.epochs_entered (Trainer.trace st) = [0; 1; 2; 3]%Z ∧
        (Trainer.saves (Trainer.trace st)).*1 = [1; 3]%Z ∧
        (Trainer.saves (Trainer.trace st)).*2.*2 =
          ["logs/1700000000/1-checkpoint.pth";
           "logs/1700000000/3-checkpoint.pth"] ∧
        length (filter (λ x, Trainer.is_barrier x = true) (Trainer.trace st)) = 4.
Proof. eexists. split; [vm_compute; reflexivity|]. vm_compute. repeat split. Qed.

Example sample_train_resumed :
  ∃ st, sample_train false true = Ok st ∧
        Trainer.epochs_entered (Trainer.trace st) = [1; 2; 3]%Z ∧
        Trainer.saves (Trainer.trace st) = [] ∧
        length (filter (λ x, Trainer.is_barrier x = true) (Trainer.trace st)) = 4.
Proof. eexists. split; [vm_compute; reflexivity|]. vm_compute. repeat split. Qed.

Lemma train_epoch_range_witness :
  (Trainer.resume (Trainer.args (sample_trainer false)) = false →
   ∃ st, sample_train true false = Ok st ∧
         Trainer.epochs_entered (Trainer.trace st) =
           range 0 (Trainer.epochs (Trainer.args (sample_trainer false))) ∧
         ∀ e, e ∈ Trainer.epochs_entered (Trainer.trace st) ↔
              (0 ≤ e < Trainer.epochs (Trainer.args (sample_trainer false)))%Z) ∧
  (∀ ck E,
     Trainer.resume (Trainer.args (sample_trainer false)) = true →
     sample_files !! Trainer.resume_from_checkpoint (Trainer.args (sample_trainer false)) = Some ck →
     resumable ck E →
     ∃ st, sample_train true false = Ok st ∧
           Trainer.epochs_entered (Trainer.trace st) =
             range E (Trainer.epochs (Trainer.args (sample_trainer false))) ∧
           ∀ e, e ∈ Trainer.epochs_entered (Trainer.trace st) ↔
                (E ≤ e < Trainer.epochs (Trainer.args (sample_trainer false)))%Z).
Proof.
  refine (train_epoch_range (Batch := nat) true sample_files
           0 (λ network, 0) (λ optimizer, (0, optimizer))
           (λ network optimizer item, (network + item, optimizer + 1, item))
           (λ scheduler optimizer, (scheduler + 1, optimizer))
           (λ optimizer, optimizer)
           (λ e, [1; 2])
           (sample_trainer false) _).
  vm_compute. discriminate.
Defined.

Lemma sample_resumed_starts_at_1 :
  starts_at (Trainer.__init__ (sample_args true) "1700000000.25") sample_files 1.
Proof.
  right. split; [reflexivity|]. exists sample_checkpoint.
  split; [reflexivity|]. by exists 3, 5, 7.
Qed.

Lemma train_checkpoints_witness :
  ∃ st,
    sample_train true true = Ok st ∧
    (Trainer.saves (Trainer.trace st)).*1 =
      filter (λ e, ((e + 1) `mod` Trainer.val_interval (sample_args true))%Z = 0%Z)
        (range 1 (Trainer.epochs (sample_args true))) ∧
    Forall (λ x : Z * (gmap string Trainer.CheckpointValue * string),
              let e := x.1 in
              let run_id := Trainer.train_name (sample_trainer true) in
              dom x.2.1 = {[ "model_state_dict"; "optimizer_state_dict";
                             "scheduler_state_dict"; "epoch" ]} ∧
              x.2.1 !! "epoch" = Some (Trainer.Int e) ∧
              x.2.2 = os_path_join
                        (os_path_join (Trainer.log_dir (sample_args true)) run_id)
                        (pretty e +:+ "-checkpoint.pth") ∧
              (Trainer.log_dir (sample_args true) ≠ "" →
               endswith_sep (Trainer.log_dir (sample_args true)) = false →
               run_id ≠ "" → startswith_sep run_id = false →
               endswith_sep run_id = false →
               x.2.2 = Trainer.log_dir (sample_args true) +:+ "/" +:+ run_id
                       +:+ "/" +:+ pretty e +:+ "-checkpoint.pth"))
      (Trainer.saves (Trainer.trace st)).
Proof.
  apply (train_checkpoints (Batch := nat) true sample_files
           0 (λ network, 0) (λ optimizer, (0, optimizer))
           (λ network optimizer item, (network + item, optimizer + 1, item))
           (λ scheduler optimizer, (scheduler + 1, optimizer))
           (λ optimizer, optimizer)
           (λ e, [1; 2])
           (sample_args true) "1700000000.25" 1).
  - vm_compute. discriminate.
  - exact sample_resumed_starts_at_1.
Defined.

Lemma sample_checkpoint_resumable : resumable sample_checkpoint 1.
Proof. by exists 3, 5, 7. Qed.

(** The sample run resumed at epoch 1 with an empty dataloader: the
    checkpoint written at epoch 1 carries the loaded optimizer and
    scheduler state. *)
Example sample_resume_without_batches :
  ∃ st,
    Trainer.train (Batch := nat) true sample_files
      0 (λ network, 0) (λ optimizer, (0, optimizer))
      (λ network optimizer item, (network + item, optimizer + 1, item))
      (λ scheduler optimizer, (scheduler + 1, optimizer))
      (λ optimizer, optimizer)
      (λ e, [])
      (sample_trainer true) = Ok st ∧
    head (Trainer.saves (Trainer.trace st)) =
      Some (1%Z,
            (<["epoch" := Trainer.Int 1]>
             (<["scheduler_state_dict" := Trainer.SchedulerStateDict 7]>
             (<["optimizer_state_dict" := Trainer.OptimizerStateDict 5]>
             (<["model_state_dict" := Trainer.NetworkStateDict 3]> ∅))),
             "logs/1700000000/1-checkpoint.pth")).
Proof. eexists. split; [vm_compute; reflexivity|]. vm_compute. reflexivity. Qed.

Lemma resume_then_checkpoint_witness :
  (∀ st0 : @Trainer.State nat nat nat nat nat nat nat,
     ∃ st,
       Trainer.load_checkpoint sample_checkpoint st0 = Ok st ∧
       Trainer.make_checkpoint (Trainer.args (sample_trainer true)) st 1
         !! "optimizer_state_dict" = sample_checkpoint !! "optimizer_state_dict" ∧
       Trainer.make_checkpoint (Trainer.args (sample_trainer true)) st 1
         !! "scheduler_state_dict" = sample_checkpoint !! "scheduler_state_dict" ∧
       Trainer.make_checkpoint (Trainer.args (sample_trainer true)) st 1
         !! "epoch" = sample_checkpoint !! "epoch") ∧
  (true = true →
   Trainer.resume (Trainer.args (sample_trainer true)) = true →
   sample_files !! Trainer.resume_from_checkpoint (Trainer.args (sample_trainer true))
     = Some sample_checkpoint →
   Trainer.val_interval (Trainer.args (sample_trainer true)) ≠ 0%Z →
   checkpoint_epoch (sample_trainer true) 1 →
   (1 < Trainer.epochs (Trainer.args (sample_trainer true)))%Z →
   (λ e : Z, @nil nat) 1%Z = [] →
   ∃ st ck' later,
     Trainer.train (Batch := nat) true sample_files
       0 (λ network, 0) (λ optimizer, (0, optimizer))
       (λ network optimizer item, (network + item, optimizer + 1, item))
       (λ scheduler optimizer, (scheduler + 1, optimizer))
       (λ optimizer, optimizer)
       (λ e, [])
       (sample_trainer true) = Ok st ∧
     Trainer.saves (Trainer.trace st) =
       (1%Z, (ck', checkpoint_filename (sample_trainer true) 1)) :: later ∧
     ck' !! "optimizer_state_dict" = sample_checkpoint !! "optimizer_state_dict" ∧
     ck' !! "scheduler_state_dict" = sample_checkpoint !! "scheduler_state_dict" ∧
     ck' !! "epoch" = sample_checkpoint !! "epoch").
Proof.
  apply (resume_then_checkpoint (Batch := nat) true sample_files
           0 (λ network, 0) (λ optimizer, (0, optimizer))
           (λ network optimizer item, (network + item, optimizer + 1, item))
           (λ scheduler optimizer, (scheduler + 1, optimizer))
           (λ optimizer, optimizer)
           (λ e, [])
           (sample_trainer true) sample_checkpoint 1).
  - reflexivity.
  - reflexivity.
  - exact sample_checkpoint_resumable.
Defined.

(** * Further properties of the code *)

(** ** Step mappers: what is returned and when *)

Lemma subdict_Some (step : Step) (k1 k2 : string) (t : tf.Tensor) :
  getitem2 step k1 k2 = Some t →
  ∃ d, step !! k1 = Some (Nested d) ∧ d !! k2 = Some t.
Proof.
  unfold getitem2, subdict. destruct (step !! k1) as [[?|d]|]; simpl;
    try discriminate.
  intros Hk. by exists d.
Qed.

Section StepMapFnReturns.

Variable resize_with_pad : tf.Tensor → nat → nat → option tf.Tensor.
Hypothesis resize_with_pad_shape : tf.resize_with_pad_spec resize_with_pad.

Lemma map_image_Some (image out : tf.Tensor) :
  map_image resize_with_pad image = Some out →
  ∃ H W C resized,
    tf.shape image = [H; W; C] ∧
    resize_with_pad image TARGET_HEIGHT TARGET_WIDTH = Some resized.
Proof.
  unfold map_image. intros Hmap.
  apply bind_Some in Hmap as (resized & Hres & Htr).
  pose proof (resize_with_pad_shape _ _ _ _ Hres) as Hshape.
  unfold tf.transpose in Htr.
  destruct (decide _) as [(Hlen & _)|]; [|discriminate]. simpl in Hlen.
  destruct (tf.shape image) as [|h [|w [|c [|d [|x rest]]]]]; try discriminate.
  - by exists h, w, c, resized.
  - injection Hshape as Hshape. rewrite <- Hshape in Hlen. discriminate.
Qed.

Lemma step_map_fn_Some_native (s : source) (step out : Step) :
  step_map_fn resize_with_pad s step = Some out →
  native_step resize_with_pad s step.
Proof.
  intros Hrun.
  destruct s;
    unfold step_map_fn, jaco_step_map_fn, berkeley_cable_routing_step_map_fn,
      bridge_step_map_fn, toto_step_map_fn in Hrun;
    repeat (apply bind_Some in Hrun as (? & ? & Hrun));
    match goal with
    | Hm : map_image _ ?i = Some _ |- _ =>
        destruct (map_image_Some _ _ Hm) as (h & w & c & resized & Hsh & Hres)
    end;
    (split; unfold first_three_field, middle_three_field, final_one_field;
     simpl; eauto 10);
    (eexists; split; [eassumption|]; intros; try discriminate).
  match goal with
  | Hr : tf.reshape ?t _ = Some _ |- _ =>
      unfold tf.reshape in Hr; destruct (decide _) as [Hn|]; [|discriminate];
      simpl in Hn; lia
  end.
Qed.

(** A mapper returns exactly on the steps that carry what it reads: a
    3-D image that [tf.image.resize_with_pad] accepts, the embedding,
    its three action fields (for the Berkeley mapper a one-element
    [terminate_episode]) and the three flags.  Any other step raises; in
    particular a batched 4-D image does, in the transpose. *)
Theorem step_map_fn_returns_iff (s : source) (step : Step) :
  is_Some (step_map_fn resize_with_pad s step) ↔
  native_step resize_with_pad s step.
Proof.
  split.
  - intros [out Hrun]. exact (step_map_fn_Some_native s step out Hrun).
  - intros Hnative.
    destruct (step_map_fn_native resize_with_pad resize_with_pad_shape
                s step Hnative)
      as (? & ? & ? & ? & ? & ? & ? & ? & ? & ? & Hrest).
    destruct Hrest as (_ & _ & _ & _ & _ & _ & _ & _ & _ & _ & Hrun).
    rewrite Hrun. by eexists.
Qed.

(** The mapped step has exactly the five top-level keys, an observation
    of exactly image and natural_language_embedding and an action of
    exactly the three groups: every other native field (other
    observation entries, other action components, rewards) is dropped. *)
Theorem step_map_fn_keys (s : source) (step : Step) :
  native_step resize_with_pad s step →
  ∃ out observation action,
    step_map_fn resize_with_pad s step = Some out ∧
    dom out = {[ "observation"; "action"; "is_first"; "is_last"; "is_terminal" ]} ∧
    out !! "observation" = Some (Nested observation) ∧
    dom observation = {[ "image"; "natural_language_embedding" ]} ∧
    out !! "action" = Some (Nested action) ∧
    dom action = {[ "first_three"; "middle_three"; "final_one" ]}.
Proof.
  intros Hnative.
  destruct (step_map_fn_native resize_with_pad resize_with_pad_shape
              s step Hnative)
    as (i0 & i & nle & t1 & t2 & t3 & fo & f & l & t & Hrest).
  destruct Hrest as (_ & _ & _ & _ & _ & _ & _ & _ & _ & _ & Hrun).
  eexists _, _, _. split; [exact Hrun|].
  unfold transformed_step.
  split_and!; try reflexivity; rewrite !dom_insert_L, dom_empty_L; set_solver.
Qed.

(** The casts keep the shape of the native field: [first_three] and
    [middle_three] always have the shape of the field they come from,
    and so has [final_one] for the jaco, bridge and toto mappers (a
    scalar [open_gripper] gives a scalar [final_one]); only the Berkeley
    mapper forces the shape (1,).  The three casts give float32. *)
Theorem step_map_fn_keeps_shapes (s : source) (step : Step)
    (t1 t2 t3 : tf.Tensor) :
  native_step resize_with_pad s step →
  getitem2 step "action" (first_three_field s) = Some t1 →
  getitem2 step "action" (middle_three_field s) = Some t2 →
  getitem2 step "action" (final_one_field s) = Some t3 →
  ∃ out first_three middle_three final_one,
    step_map_fn resize_with_pad s step = Some out ∧
    getitem2 out "action" "first_three" = Some first_three ∧
    getitem2 out "action" "middle_three" = Some middle_three ∧
    getitem2 out "action" "final_one" = Some final_one ∧
    tensor_spec first_three = (tf.shape t1, tf.float32) ∧
    tensor_spec middle_three = (tf.shape t2, tf.float32) ∧
    tensor_spec final_one =
      match s with
      | berkeley_cable_routing => ([1], tf.dtype t3)
      | _ => (tf.shape t3, tf.float32)
      end.
Proof.
  intros Hnative H1 H2 H3.
  destruct (step_map_fn_native resize_with_pad resize_with_pad_shape
              s step Hnative)
    as (i0 & i & nle & u1 & u2 & u3 & fo & f & l & t & _ & _ & _ & Hu1 & Hu2
        & Hu3 & Hfo & _ & _ & _ & Hrun).
  rewrite H1 in Hu1. injection Hu1 as <-.
  rewrite H2 in Hu2. injection Hu2 as <-.
  rewrite H3 in Hu3. injection Hu3 as <-.
  eexists _, _, _, _. split; [exact Hrun|].
  split_and!; try reflexivity.
  subst fo. by destruct s.
Qed.

(** A mapped step is no native step any more: its action holds the three
    canonical groups and none of the native fields, so every mapper
    raises on it. *)
Theorem step_map_fn_output_not_native (s : source) (step : Step) :
  native_step resize_with_pad s step →
  ∃ out, step_map_fn resize_with_pad s step = Some out ∧
         ∀ s', step_map_fn resize_with_pad s' out = None.
Proof.
  intros Hnative.
  destruct (step_map_fn_native resize_with_pad resize_with_pad_shape
              s step Hnative)
    as (i0 & i & nle & t1 & t2 & t3 & fo & f & l & t & Hrest).
  destruct Hrest as (_ & _ & _ & _ & _ & _ & _ & _ & _ & _ & Hrun).
  eexists. split; [exact Hrun|].
  intros s'.
  destruct (step_map_fn resize_with_pad s' _) as [out'|] eqn:Hagain; [|done].
  assert (native_step resize_with_pad s'
            (transformed_step i nle (tf.cast t1 tf.float32)
               (tf.cast t2 tf.float32) fo f l t)) as [_ _ Hfirst _ _]
    by (eapply step_map_fn_Some_native; exact Hagain).
  destruct Hfirst as [x Hx]. by destruct s'.
Qed.

End StepMapFnReturns.

Lemma step_map_fn_returns_iff_witness :
  (is_Some (step_map_fn sample_resize_with_pad toto sample_toto_step) ↔
   native_step sample_resize_with_pad toto sample_toto_step) ∧
  is_Some (step_map_fn sample_resize_with_pad toto sample_toto_step).
Proof.
  split.
  - apply (step_map_fn_returns_iff sample_resize_with_pad
             sample_resize_with_pad_spec toto sample_toto_step).
  - by eexists.
Defined.

Lemma step_map_fn_keys_witness :
  ∃ out observation action,
    step_map_fn sample_resize_with_pad bridge sample_bridge_step = Some out ∧
    dom out = {[ "observation"; "action"; "is_first"; "is_last"; "is_terminal" ]} ∧
    out !! "observation" = Some (Nested observation) ∧
    dom observation = {[ "image"; "natural_language_embedding" ]} ∧
    out !! "action" = Some (Nested action) ∧
    dom action = {[ "first_three"; "middle_three"; "final_one" ]}.
Proof.
  apply (step_map_fn_keys sample_resize_with_pad sample_resize_with_pad_spec
           bridge sample_bridge_step).
  exact sample_bridge_step_native.
Defined.

Lemma step_map_fn_keeps_shapes_witness :
  ∃ out first_three middle_three final_one,
    step_map_fn sample_resize_with_pad toto sample_toto_step = Some out ∧
    getitem2 out "action" "first_three" = Some first_three ∧
    getitem2 out "action" "middle_three" = Some middle_three ∧
    getitem2 out "action" "final_one" = Some final_one ∧
    tensor_spec first_three =
      (tf.shape (source_tensor "world_vector" [3] tf.float32), tf.float32) ∧
    tensor_spec middle_three =
      (tf.shape (source_tensor "rotation_delta" [3] tf.float32), tf.float32) ∧
    tensor_spec final_one =
      (tf.shape (source_tensor "open_gripper" [] tf.bool_), tf.float32).
Proof.
  apply (step_map_fn_keeps_shapes sample_resize_with_pad
           sample_resize_with_pad_spec toto sample_toto_step
           (source_tensor "world_vector" [3] tf.float32)
           (source_tensor "rotation_delta" [3] tf.float32)
           (source_tensor "open_gripper" [] tf.bool_)).
  - exact sample_toto_step_native.
  - reflexivity.
  - reflexivity.
  - reflexivity.
Defined.

Lemma step_map_fn_output_not_native_witness :
  ∃ out, step_map_fn sample_resize_with_pad bridge sample_bridge_step = Some out ∧
         ∀ s', step_map_fn sample_resize_with_pad s' out = None.
Proof.
  apply (step_map_fn_output_not_native sample_resize_with_pad
           sample_resize_with_pad_spec bridge sample_bridge_step).
  exact sample_bridge_step_native.
Defined.

(** What the stand-in refuses makes the mapper raise: a boolean image,
    an image with an empty dimension, a batch of images. *)
Example step_map_fn_refused_images :
  let with_image image :=
    <["observation" :=
        Nested (<["natural_language_embedding" :=
                    source_tensor "natural_language_embedding" [512] tf.float32]>
                (<["image" := image]> ∅))]> sample_toto_step in
  step_map_fn sample_resize_with_pad toto
    (with_image (source_tensor "image" [480; 640; 3] tf.bool_)) = None ∧
  step_map_fn sample_resize_with_pad toto
    (with_image (source_tensor "image" [0; 640; 3] tf.uint8)) = None ∧
  step_map_fn sample_resize_with_pad toto
    (with_image (source_tensor "image" [8; 480; 640; 3] tf.uint8)) = None.
Proof. vm_compute. repeat split. Qed.

(** ** CombinedDataset: batches and the schema check *)

Section FetchFacts.

Context {Iterator TorchTensor : Type}.
Variable tf_to_torch : tf.Tensor → TorchTensor.
Variable next : Iterator → option (Step * Iterator).


End FetchFacts.

(** Two batches of two, fetched with unrelated indices from a stream of
    three steps: the first batch holds the first two steps, the second
    one runs out of data. *)
Example fetch_sample :
  (∃ rest,
     fetch (λ t, t) list_next
       {| CombinedDataset.combined_dataset_it :=
            [sample_bridge_step; sample_toto_step; sample_bridge_step] |}
       [7; 7]%Z
     = Ok ([CombinedDataset.to_torch (λ t, t) sample_bridge_step;
            CombinedDataset.to_torch (λ t, t) sample_toto_step], rest) ∧
     fetch (λ t, t) list_next rest [0; 1]%Z = Raise StopIteration).
Proof. eexists. split; reflexivity. Qed.

Section AssertLoopFacts.

Context {TensorSpec : Type} `{EqDecision TensorSpec}.

(** The schema check of lines 21-23 on any number of sources: it passes
    exactly when every transform expects the tensor spec of the
    template, the only exception it raises is AssertionError, and after
    it has passed any two sources expect the same spec. *)
Theorem assert_loop_iff
    (template : @CombinedDataset.TrajectoryTransform TensorSpec)
    (transforms : list CombinedDataset.TrajectoryTransform) :
  (CombinedDataset.assert_loop template transforms = Ok () ↔
   Forall (λ tr, CombinedDataset.expected_tensor_spec tr =
                 CombinedDataset.expected_tensor_spec template) transforms) ∧
  (∀ e, CombinedDataset.assert_loop template transforms = Raise e →
        e = AssertionError) ∧
  (CombinedDataset.assert_loop template transforms = Ok () →
   ∀ tr1 tr2, tr1 ∈ transforms → tr2 ∈ transforms →
     CombinedDataset.expected_tensor_spec tr1 =
     CombinedDataset.expected_tensor_spec tr2).
Proof.
  assert (CombinedDataset.assert_loop template transforms = Ok () →
          Forall (λ tr, CombinedDataset.expected_tensor_spec tr =
                        CombinedDataset.expected_tensor_spec template)
            transforms) as Hok.
  { induction transforms as [|tr rest IH]; simpl; [constructor|].
    destruct (decide _) as [Heq|]; [|discriminate].
    intros Hrest. constructor; [exact Heq | exact (IH Hrest)]. }
  split_and!.
  - split; [exact Hok | apply assert_loop_ok].
  - induction transforms as [|tr rest IH]; simpl; [discriminate|].
    destruct (decide _) as [Heq|Hne]; [|congruence].
    intros e He. apply IH; [|exact He].
    intros Hrest. specialize (Hok ltac:(simpl; by rewrite decide_True)).
    by inversion Hok.
  - intros Hrun tr1 tr2 H1 H2. specialize (Hok Hrun).
    rewrite Forall_forall in Hok. by rewrite (Hok tr1 H1), (Hok tr2 H2).
Qed.

End AssertLoopFacts.

(** ** retrieve_single_timestep: indices out of range and from the end *)

Section RetrieveEdgeCases.

Context {A : Type}.
Implicit Types (v : torch.Tensor A).

(** [v[:, idx]] returns exactly when [v] has a second axis and [idx]
    lies in [-T, T) for its length [T]; otherwise it is an IndexError. *)
Lemma select_dim1_returns_iff v (idx : Z) :
  (∃ v', torch.select_dim1 v idx = Ok v') ↔
  ∃ d0 T rest, torch.shape v = d0 :: T :: rest ∧
               (- Z.of_nat T ≤ idx < Z.of_nat T)%Z.
Proof.
  unfold torch.select_dim1, torch.normalize_index.
  destruct (torch.shape v) as [|d0 [|T rest]] eqn:Hshape.
  - split; [intros [? ?]; discriminate | intros (? & ? & ? & ? & _); discriminate].
  - split; [intros [? ?]; discriminate | intros (? & ? & ? & ? & _); discriminate].
  - split.
    + intros [v' Hv']. exists d0, T, rest. split; [done|].
      destruct (decide (0 ≤ idx < Z.of_nat T)%Z); [lia|].
      destruct (decide (- Z.of_nat T ≤ idx < 0)%Z); [lia|]. discriminate.
    + intros (d0' & T' & rest' & [= <- <- <-] & Hidx).
      destruct (decide (0 ≤ idx < Z.of_nat T)%Z); [by eexists|].
      rewrite decide_True by lia. by eexists.
Qed.

Lemma select_dim1_raises v (idx : Z) (e : exception) :
  torch.select_dim1 v idx = Raise e → e = IndexError.
Proof.
  unfold torch.select_dim1.
  destruct (torch.shape v) as [|d0 [|T rest]]; try congruence.
  destruct (torch.normalize_index idx T); simpl; congruence.
Qed.

(** A negative index counts from the end of the time axis. *)
Lemma select_dim1_negative v (d0 T : nat) (rest : list nat) (idx : Z) :
  torch.shape v = d0 :: T :: rest →
  (- Z.of_nat T ≤ idx < 0)%Z →
  torch.select_dim1 v idx = torch.select_dim1 v (idx + Z.of_nat T).
Proof.
  intros Hshape Hidx. unfold torch.select_dim1, torch.normalize_index.
  rewrite Hshape.
  rewrite (decide_False (P := (0 ≤ idx < Z.of_nat T)%Z)) by lia.
  rewrite (decide_True (P := (- Z.of_nat T ≤ idx < 0)%Z)) by lia.
  rewrite (decide_True (P := (0 ≤ idx + Z.of_nat T < Z.of_nat T)%Z)) by lia.
  reflexivity.
Qed.

Lemma retrieve_loop_raises (m acc0 : gmap string (torch.Tensor A)) (idx : Z) :
  let run :=
    map_fold (λ k v acc,
                dict_obj_return ← acc;
                x ← torch.select_dim1 v idx;
                Ok (<[k := x]> dict_obj_return)) (Ok acc0) m in
  (∀ e, run = Raise e → e = IndexError) ∧
  ((∃ k v e, m !! k = Some v ∧ torch.select_dim1 v idx = Raise e) →
   ∃ e, run = Raise e).
Proof.
  apply (map_fold_weak_ind (λ r m,
    (∀ e, r = Raise e → e = IndexError) ∧
    ((∃ k v e, m !! k = Some v ∧ torch.select_dim1 v idx = Raise e) →
     ∃ e, r = Raise e))).
  - split; [discriminate|]. intros (k & v & e & Hk & _).
    by rewrite lookup_empty in Hk.
  - intros j x m' r Hfresh [IHe IHr]. split.
    + intros e. destruct r as [out|e']; simpl.
      * destruct (torch.select_dim1 x idx) as [x'|e'] eqn:Hx; simpl;
          [discriminate|].
        intros [= <-]. exact (select_dim1_raises _ _ _ Hx).
      * intros [= <-]. by apply IHe.
    + intros (k & v & e & Hk & Hv).
      destruct r as [out|e']; simpl; [|by eexists].
      destruct (decide (j = k)) as [->|Hne].
      * rewrite lookup_insert_eq in Hk. injection Hk as ->.
        rewrite Hv. by eexists.
      * rewrite lookup_insert_ne in Hk by exact Hne.
        destruct IHr as [e' He']; [by exists k, v, e|discriminate].
Qed.

(** [retrieve_single_timestep] returns exactly when every tensor of the
    dictionary has a second axis whose length [T] admits the index
    ([-T <= idx < T]); otherwise it raises, and what it raises is always
    IndexError.  On the empty dictionary it returns the empty dictionary
    for any index. *)
Theorem retrieve_single_timestep_returns_iff
    (d : gmap string (torch.Tensor A)) (idx : Z) :
  ((∃ out, Trainer.retrieve_single_timestep d idx = Ok out) ↔
   ∀ k v, d !! k = Some v →
     ∃ d0 T rest, torch.shape v = d0 :: T :: rest ∧
                  (- Z.of_nat T ≤ idx < Z.of_nat T)%Z) ∧
  (∀ e, Trainer.retrieve_single_timestep d idx = Raise e → e = IndexError) ∧
  Trainer.retrieve_single_timestep (A := A) ∅ idx = Ok ∅.
Proof.
  destruct (retrieve_loop_raises d d idx) as [Hkind Hraise].
  split_and!.
  - split.
    + intros [out Hout] k v Hk. apply select_dim1_returns_iff.
      destruct (torch.select_dim1 v idx) as [v'|e] eqn:Hv; [by eexists|].
      destruct Hraise as [e' He']; [by exists k, v, e|].
      unfold Trainer.retrieve_single_timestep in Hout. congruence.
    + intros Hall.
      destruct (retrieve_loop d d idx) as (out & Hout & _); [|by exists out].
      intros k v Hk. apply select_dim1_returns_iff. by apply (Hall k).
  - exact Hkind.
  - reflexivity.
Qed.

(** On tensors with a time axis of length [T], an index in [-T, 0)
    selects the same time step as [idx + T]: [-1] is the last step. *)
Theorem retrieve_single_timestep_negative
    (d : gmap string (torch.Tensor A)) (T : nat) (idx : Z) :
  (∀ k v, d !! k = Some v → ∃ d0 rest, torch.shape v = d0 :: T :: rest) →
  (- Z.of_nat T ≤ idx < 0)%Z →
  (∃ out, Trainer.retrieve_single_timestep d idx = Ok out) ∧
  Trainer.retrieve_single_timestep d idx =
    Trainer.retrieve_single_timestep d (idx + Z.of_nat T).
Proof.
  intros Hshape Hidx.
  assert (∀ k v, d !! k = Some v →
            ∃ v', torch.select_dim1 v idx = Ok v') as Hsel.
  { intros k v Hk. apply select_dim1_returns_iff.
    destruct (Hshape k v Hk) as (d0 & rest & Hv).
    exists d0, T, rest. split; [done|lia]. }
  assert (∀ k v, d !! k = Some v →
            ∃ v', torch.select_dim1 v (idx + Z.of_nat T) = Ok v') as Hsel'.
  { intros k v Hk. apply select_dim1_returns_iff.
    destruct (Hshape k v Hk) as (d0 & rest & Hv).
    exists d0, T, rest. split; [done|lia]. }
  destruct (retrieve_loop d d idx Hsel) as (out & Hout & Hlook).
  destruct (retrieve_loop d d (idx + Z.of_nat T) Hsel') as (out' & Hout' & Hlook').
  split; [by exists out|].
  unfold Trainer.retrieve_single_timestep. rewrite Hout, Hout'. f_equal.
  apply map_eq. intros k. rewrite Hlook, Hlook'.
  destruct (d !! k) as [v|] eqn:Hk; [|done].
  destruct (Hshape k v Hk) as (d0 & rest & Hv).
  by rewrite (select_dim1_negative v d0 T rest idx Hv Hidx).
Qed.

End RetrieveEdgeCases.

Lemma retrieve_single_timestep_negative_witness :
  (∃ out, Trainer.retrieve_single_timestep sample_batch (-1) = Ok out) ∧
  Trainer.retrieve_single_timestep sample_batch (-1) =
    Trainer.retrieve_single_timestep sample_batch (-1 + Z.of_nat 3).
Proof.
  apply (retrieve_single_timestep_negative sample_batch 3 (-1)).
  - intros k v Hk. destruct (sample_batch_time_axis k v Hk) as [_ Hshape].
    exact Hshape.
  - lia.
Defined.

(** The last time step, a step past the end, and a dictionary holding a
    vector. *)
Example retrieve_single_timestep_edges :
  Trainer.retrieve_single_timestep sample_batch (-1) =
    Ok (<["image" := torch.mkTensor [2; 2] [4; 5; 10; 11]]>
        (<["natural_language_embedding" := torch.mkTensor [2] [102; 105]]> ∅)) ∧
  Trainer.retrieve_single_timestep sample_batch 3 = Raise IndexError ∧
  Trainer.retrieve_single_timestep sample_batch (-4) = Raise IndexError ∧
  Trainer.retrieve_single_timestep
    (<["is_first" := torch.mkTensor [2] [0; 1]]> sample_batch) 0 = Raise IndexError.
Proof. vm_compute. repeat split. Qed.

(** ** Checkpoint file names *)

Lemma string_app_length (s t : string) :
  String.length (s +:+ t) = String.length s + String.length t.
Proof.
  induction s as [|c s IH]; [done|]. rewrite string_app_cons. simpl. by rewrite IH.
Qed.

Lemma string_app_inj_r (s t u : string) : s +:+ u = t +:+ u → s = t.
Proof.
  revert t. induction s as [|c s IH]; intros [|c' t] Heq.
  - done.
  - apply (f_equal String.length) in Heq.
    rewrite (string_app_length (String c' t) u) in Heq.
    change (String.length ("" +:+ u)) with (String.length u) in Heq.
    simpl in Heq. lia.
  - apply (f_equal String.length) in Heq.
    rewrite (string_app_length (String c s) u) in Heq.
    change (String.length ("" +:+ u)) with (String.length u) in Heq.
    simpl in Heq. lia.
  - rewrite !string_app_cons in Heq. injection Heq as -> Heq.
    by rewrite (IH t Heq).
Qed.

Lemma os_path_join_inj (a b b' : string) :
  startswith_sep b = false → startswith_sep b' = false →
  os_path_join a b = os_path_join a b' → b = b'.
Proof.
  unfold os_path_join. intros -> ->.
  destruct (bool_decide (a = "") || endswith_sep a); intros Heq.
  - by apply (inj (String.append a)) in Heq.
  - apply (inj (String.append a)) in Heq.
    by apply (inj (String.append "/")) in Heq.
Qed.

(** Distinct epochs have distinct checkpoint files, whatever the
    checkpoint directory is. *)
Lemma checkpoint_filename_inj (self : Trainer.t) (e e' : Z) :
  checkpoint_filename self e = checkpoint_filename self e' → e = e'.
Proof.
  unfold checkpoint_filename. intros Heq.
  apply os_path_join_inj in Heq; [|apply checkpoint_file_relative..].
  apply string_app_inj_r in Heq. by apply (inj pretty) in Heq.
Qed.

(** ** Barriers in a trace *)

Section BarrierFacts.

Context {NetworkState OptimizerState SchedulerState Float : Type}.

Local Abbreviation Event :=
  (@Trainer.event NetworkState OptimizerState SchedulerState Float).

Implicit Types (tr : list (Z * Event)) (es : list Z).

Local Abbreviation later := (@write_after_barrier_is_later NetworkState
                               OptimizerState SchedulerState Float).

Lemma barriers_app tr1 tr2 : barriers (tr1 ++ tr2) = barriers tr1 ++ barriers tr2.
Proof. apply omap_app. Qed.

Lemma scalars_no_barrier (e : Z) tr :
  Forall (is_add_scalar e) tr →
  barriers tr = [] ∧ Forall (λ x, Trainer.is_barrier x = false ∧ x.1 = e) tr.
Proof.
  induction 1 as [|[e' ev] l (He & tag & n & x & Hev) _ [IH1 IH2]]; [done|].
  simpl in *. subst. split; [exact IH1|]. by constructor.
Qed.

Lemma sorted_no_barrier tr :
  Forall (λ x, Trainer.is_barrier x = false) tr → StronglySorted later tr.
Proof.
  induction 1 as [|x l Hx Hl IH]; constructor; [exact IH|].
  apply Forall_forall. intros y _ Hb. congruence.
Qed.

Lemma sorted_no_write tr :
  Forall (λ x, Trainer.is_write x = false) tr → StronglySorted later tr.
Proof.
  induction 1 as [|x l Hx Hl IH]; constructor; [exact IH|].
  eapply Forall_impl; [exact Hl|]. intros y Hy _ Hw. congruence.
Qed.

Lemma sorted_writes_then_barriers tr1 tr2 :
  Forall (λ x, Trainer.is_barrier x = false) tr1 →
  Forall (λ x, Trainer.is_write x = false) tr2 →
  StronglySorted later (tr1 ++ tr2).
Proof.
  intros H1 H2. apply StronglySorted_app_2.
  - intros x y Hx _ Hb. rewrite Forall_forall in H1. rewrite (H1 x Hx) in Hb.
    discriminate.
  - by apply sorted_no_barrier.
  - by apply sorted_no_write.
Qed.

Lemma no_barrier_barriers tr :
  Forall (λ x, Trainer.is_barrier x = false) tr → barriers tr = [].
Proof.
  induction 1 as [|[e ev] l Hx _ IH]; [done|].
  unfold Trainer.is_barrier in Hx. simpl in *. by destruct ev.
Qed.

(** One epoch: its barriers, its label, and the order of writes and
    barriers inside it. *)
Lemma epoch_trace_barriers (self : Trainer.t) (m : bool) (e : Z) tr :
  epoch_trace_of self m e tr →
  barriers tr = epoch_barriers self e ∧
  Forall (λ x, x.1 = e) tr ∧
  StronglySorted later tr ∧
  (m = false → Forall (λ x, Trainer.is_write x = false) tr).
Proof.
  intros (scalars & ck & -> & Hscalars & Hnone & _).
  destruct (scalars_no_barrier e scalars Hscalars) as [_ Hnb].
  set (save := if decide (checkpoint_epoch self e)
               then if m then [(e, Trainer.TorchSave ck (checkpoint_filename self e))]
                    else []
               else [] : list (Z * Event)).
  set (W := (e, Trainer.NetworkTrain) :: scalars ++ save).
  set (B := if decide (checkpoint_epoch self e)
            then if Trainer.distributed (Trainer.args self)
                 then [(e, Trainer.Barrier Trainer.end_of_epoch);
                       (e, Trainer.Barrier Trainer.end_of_val)]
                 else []
            else [] : list (Z * Event)).
  assert ([(e, Trainer.NetworkTrain)] ++ scalars ++
          (if decide (checkpoint_epoch self e)
           then checkpoint_events self m e ck else []) = W ++ B) as ->.
  { subst W B save. unfold checkpoint_events.
    destruct (decide (checkpoint_epoch self e)); simpl;
      by rewrite <- ?app_assoc, ?app_nil_r. }
  assert (Forall (λ x, Trainer.is_barrier x = false) W) as HWb.
  { subst W save. constructor; [done|]. apply Forall_app. split.
    - eapply Forall_impl; [exact Hnb|]. by intros ? [? ?].
    - destruct (decide (checkpoint_epoch self e)), m; by repeat constructor. }
  assert (Forall (λ x, x.1 = e) W) as HWe.
  { subst W save. constructor; [done|]. apply Forall_app. split.
    - eapply Forall_impl; [exact Hnb|]. by intros ? [? ?].
    - destruct (decide (checkpoint_epoch self e)), m; by repeat constructor. }
  assert (Forall (λ x, Trainer.is_write x = false ∧ x.1 = e) B) as HB.
  { subst B. destruct (decide (checkpoint_epoch self e)),
      (Trainer.distributed (Trainer.args self)); by repeat constructor. }
  split_and!.
  - rewrite barriers_app, (no_barrier_barriers W HWb). subst B.
    unfold epoch_barriers.
    by destruct (decide (checkpoint_epoch self e)),
      (Trainer.distributed (Trainer.args self)).
  - apply Forall_app. split; [exact HWe|].
    eapply Forall_impl; [exact HB|]. by intros ? [? ?].
  - apply sorted_writes_then_barriers; [exact HWb|].
    eapply Forall_impl; [exact HB|]. by intros ? [? ?].
  - intros ->. apply Forall_app. split.
    + subst W save. rewrite (Hnone eq_refl).
      destruct (decide (checkpoint_epoch self e)); by repeat constructor.
    + eapply Forall_impl; [exact HB|]. by intros ? [? ?].
Qed.

Lemma range_sorted (start stop : Z) : StronglySorted Z.lt (range start stop).
Proof.
  unfold range. remember (Z.to_nat (stop - start)) as k eqn:Hk.
  revert start Hk. induction k as [|k IH]; intros start Hk.
  - rewrite seqZ_nil by lia. constructor.
  - rewrite seqZ_cons by lia. constructor.
    + replace (Z.pred (stop - start)) with (stop - Z.succ start)%Z by lia.
      apply IH. lia.
    + apply Forall_forall. intros x Hx. apply elem_of_seqZ in Hx. lia.
Qed.

(** A whole run over strictly increasing epochs. *)
Lemma trace_shape_barriers (self : Trainer.t) (m : bool) es tr :
  trace_shape self m es tr →
  StronglySorted Z.lt es →
  barriers tr = concat (epoch_barriers self <$> es) ∧
  Forall (λ x, x.1 ∈ es) tr ∧
  StronglySorted later tr ∧
  (m = false → Forall (λ x, Trainer.is_write x = false) tr).
Proof.
  intros (trs & -> & Hall) Hsorted.
  induction Hall as [|e tr1 es trs H1 _ IH]; [by repeat constructor|].
  inversion Hsorted as [|? ? Hsorted' Hlt]; subst.
  destruct (IH Hsorted') as (IHb & IHe & IHs & IHw).
  destruct (epoch_trace_barriers self m e tr1 H1) as (Hb & He & Hs & Hw).
  simpl. split_and!.
  - by rewrite barriers_app, Hb, IHb.
  - apply Forall_app. split.
    + eapply Forall_impl; [exact He|]. intros x ->. by left.
    + eapply Forall_impl; [exact IHe|]. intros x Hx. by right.
  - apply StronglySorted_app_2; [|exact Hs|exact IHs].
    intros x y Hx Hy _ _.
    rewrite Forall_forall in He. rewrite Forall_forall in IHe.
    rewrite Forall_forall in Hlt.
    rewrite (He x Hx). apply Hlt, IHe, Hy.
  - intros Hm. apply Forall_app. split; [by apply Hw | by apply IHw].
Qed.

Lemma elem_of_barriers tr (e : Z) (point : Trainer.barrier_point) :
  (e, point) ∈ barriers tr ↔ (e, Trainer.Barrier point) ∈ tr.
Proof.
  unfold barriers. rewrite list_elem_of_omap. split.
  - intros ([e' ev] & Hin & Hev). simpl in Hev.
    destruct ev; try discriminate. by injection Hev as -> ->.
  - intros Hin. by exists (e, Trainer.Barrier point).
Qed.

(** What every reachable state of a group keeps: each process is
    somewhere in its own program, and all processes have left the same
    number of barriers. *)
Lemma reachable_invariant (programs : list (list (Z * Event)))
    (group : list (@Process NetworkState OptimizerState SchedulerState Float)) :
  reachable programs group →
  length group = length programs ∧
  (∀ i p program, group !! i = Some p → programs !! i = Some program →
                  done p ++ todo p = program) ∧
  ∃ n, ∀ i p, group !! i = Some p → length (barriers (done p)) = n.
Proof.
  unfold reachable. revert group. apply rtc_ind_r.
  2: intros group group' _ Hstep (Hlen & Hprog & n & Hn).
  - unfold start_group. split_and!.
    + by rewrite length_fmap.
    + intros i p program Hp Hprogram. rewrite list_lookup_fmap, Hprogram in Hp.
      by injection Hp as <-.
    + exists 0. intros i p Hp. rewrite list_lookup_fmap in Hp.
      destruct (programs !! i); [|discriminate]. by injection Hp as <-.
  - inversion Hstep as [g i p x rest Hp Htodo Hx Hg1 Hg2|g Hall Hg1 Hg2]; subst.
    + assert (advance p = {| done := done p ++ [x]; todo := rest |}) as Hadv
        by (unfold advance; by rewrite Htodo).
      assert (barriers (done p ++ [x]) = barriers (done p)) as Hbar.
      { rewrite barriers_app.
        rewrite (no_barrier_barriers [x]) by (by repeat constructor).
        by rewrite app_nil_r. }
      split_and!.
      * by rewrite length_insert.
      * intros j q program Hq Hprogram.
        apply list_lookup_insert_Some in Hq as [(-> & <- & _)|[Hne Hq]].
        -- rewrite Hadv. simpl. rewrite <- app_assoc. simpl.
           rewrite <- Htodo. by apply (Hprog j).
        -- by apply (Hprog j).
      * exists n. intros j q Hq.
        apply list_lookup_insert_Some in Hq as [(-> & <- & _)|[Hne Hq]].
        -- rewrite Hadv. simpl. rewrite Hbar. by apply (Hn j).
        -- by apply (Hn j).
    + split_and!.
      * by rewrite length_fmap.
      * intros j q program Hq Hprogram. rewrite list_lookup_fmap in Hq.
        destruct (group !! j) as [p|] eqn:Hp; [|discriminate].
        injection Hq as <-.
        rewrite Forall_forall in Hall.
        destruct (Hall p) as (x & rest & Htodo & _);
          [by eapply list_elem_of_lookup_2|].
        unfold advance. rewrite Htodo. simpl. rewrite <- app_assoc. simpl.
        rewrite <- Htodo. by apply (Hprog j).
      * exists (S n). intros j q Hq. rewrite list_lookup_fmap in Hq.
        destruct (group !! j) as [p|] eqn:Hp; [|discriminate].
        injection Hq as <-.
        rewrite Forall_forall in Hall.
        destruct (Hall p) as ([e ev] & rest & Htodo & Hx);
          [by eapply list_elem_of_lookup_2|].
        unfold advance. rewrite Htodo. simpl. rewrite barriers_app.
        rewrite length_app, (Hn j p Hp).
        unfold Trainer.is_barrier in Hx. simpl in Hx.
        destruct ev; try discriminate. simpl. lia.
Qed.

(** In a group whose programs all have the same barriers, a process
    whose writes never follow a barrier of their epoch or of a later one
    has performed its writes up to the epoch of any barrier that some
    process has left. *)
Lemma reachable_barrier_waits (programs : list (list (Z * Event)))
    (group : list (@Process NetworkState OptimizerState SchedulerState Float))
    (j : nat) (program : list (Z * Event))
    (bs : list (Z * Trainer.barrier_point)) :
  reachable programs group →
  Forall (λ pr, barriers pr = bs) programs →
  programs !! j = Some program →
  StronglySorted write_after_barrier_is_later program →
  barrier_waits_for program group j.
Proof.
  intros Hreach Hbs Hj Hsorted i p_i p_j e point Hi Hdone Hgj x Hx Hwrite Hle.
  destruct (reachable_invariant _ _ Hreach) as (Hlen & Hprog & n & Hn).
  destruct (programs !! i) as [q_i|] eqn:Hqi.
  2: { apply lookup_ge_None in Hqi. apply lookup_lt_Some in Hi. lia. }
  pose proof (Hprog i p_i q_i Hi Hqi) as Hpi.
  pose proof (Hprog j p_j program Hgj Hj) as Hpj.
  pose proof (proj1 (Forall_lookup _ _) Hbs i q_i Hqi) as Hbi.
  pose proof (proj1 (Forall_lookup _ _) Hbs j program Hj) as Hbj.
  simpl in Hbi, Hbj.
  rewrite <- Hpi, barriers_app in Hbi.
  rewrite <- Hpj in Hsorted, Hx. rewrite <- Hpj, barriers_app in Hbj.
  destruct (app_inj_1 (barriers (done p_i)) (barriers (done p_j))
              (barriers (todo p_i)) (barriers (todo p_j))) as [Hsame _].
  { by rewrite (Hn i p_i Hi), (Hn j p_j Hgj). }
  { by rewrite Hbi, Hbj. }
  assert ((e, Trainer.Barrier point) ∈ done p_j) as Hbarrier.
  { apply elem_of_barriers. rewrite <- Hsame. by apply elem_of_barriers. }
  apply elem_of_app in Hx as [Hx|Hx]; [exact Hx|].
  pose proof (StronglySorted_app_1_elem_of _ _ _ _ _ Hsorted Hbarrier Hx) as Hlt.
  unfold write_after_barrier_is_later in Hlt. simpl in Hlt.
  specialize (Hlt eq_refl Hwrite). lia.
Qed.

End BarrierFacts.

(** ** The training loop: logging, failures, checkpoint files *)

Section TrainerLogging.

Context {Network Optimizer Scheduler : Type}.
Context {NetworkState OptimizerState SchedulerState : Type}.
Context {Batch Float : Type}.
Context `{!Trainer.Stateful Network NetworkState}.
Context `{!Trainer.Stateful Optimizer OptimizerState}.
Context `{!Trainer.Stateful Scheduler SchedulerState}.

Variable is_main_process : bool.
Variable files :
  gmap string
    (gmap string (@Trainer.CheckpointValue NetworkState OptimizerState SchedulerState)).
Variable TransformerNetwork : Network.
Variable AdamW : Network → Optimizer.
Variable CosineAnnealingWarmRestarts : Optimizer → Scheduler * Optimizer.
Variable training_step : Network → Optimizer → Batch → Network * Optimizer * Float.
Variable scheduler_step : Scheduler → Optimizer → Scheduler * Optimizer.
Variable lr : Optimizer → Float.
Variable train_dataloader : Z → list Batch.

Local Abbreviation train_batch :=
  (Trainer.train_batch is_main_process training_step lr).
Local Abbreviation train_epoch :=
  (Trainer.train_epoch is_main_process training_step scheduler_step lr
     train_dataloader).
Local Abbreviation train :=
  (Trainer.train is_main_process files TransformerNetwork AdamW
     CosineAnnealingWarmRestarts training_step scheduler_step lr
     train_dataloader).
Local Abbreviation State :=
  (@Trainer.State Network Optimizer Scheduler NetworkState OptimizerState
     SchedulerState Float).

Lemma logged_refl (m : bool) (st : State) : logged m st 0 st.
Proof.
  split_and!; [lia| |done]. destruct m; by rewrite app_nil_r.
Qed.

Lemma logged_trans (main : bool) (st0 st1 st2 : State) (n m : nat) :
  logged main st0 n st1 → logged main st1 m st2 → logged main st0 (n + m) st2.
Proof.
  intros (Hc1 & Hs1 & He1) (Hc2 & Hs2 & He2). split_and!.
  - lia.
  - rewrite Hs2, Hs1, Hc1, <- app_assoc. f_equal.
    destruct main; [|done].
    by rewrite seq_app, fmap_app, concat_app.
  - auto.
Qed.

Lemma train_batch_logged (e : Z) (st : State) (item : Batch) :
  logged is_main_process st 1 (train_batch e st item).
Proof.
  unfold Trainer.train_batch.
  destruct (training_step _ _ item) as [[network' optimizer'] loss].
  destruct is_main_process; unfold logged; simpl.
  - split_and!; [lia| |].
    + unfold scalars_logged. by rewrite omap_app.
    + intros Hok. apply Forall_app. split; [exact Hok|].
      repeat constructor; intros n v [=]; by subst.
  - split_and!; [lia|by rewrite app_nil_r|done].
Qed.

Lemma train_batches_logged (e : Z) (items : list Batch) (st : State) :
  logged is_main_process st (length items) (foldl (train_batch e) st items).
Proof.
  revert st. induction items as [|item items IH]; intros st; simpl.
  - apply logged_refl.
  - apply (logged_trans _ _ _ _ 1 (length items) (train_batch_logged e st item)).
    apply IH.
Qed.

(** An event that is no scalar changes nothing of what is logged. *)
Lemma emit_logged (m : bool) (e : Z) (evs : list Trainer.event) (st : State) :
  Forall (λ ev, ∀ tag n v, ev ≠ Trainer.AddScalar tag n v) evs →
  logged m st 0 (Trainer.emit e evs st).
Proof.
  intros Hevs. split_and!; simpl.
  - lia.
  - unfold scalars_logged. rewrite omap_app.
    assert (omap (λ x : Z * Trainer.event,
                    match x.2 with
                    | Trainer.AddScalar tag global_step _ => Some (tag, global_step)
                    | _ => None
                    end) ((λ ev, (e, ev)) <$> evs) = []) as ->.
    { induction Hevs as [|ev evs Hev _ IH]; [done|]. simpl.
      destruct ev; try exact IH. by destruct (Hev tag global_step scalar_value). }
    by destruct m.
  - intros Hok. apply Forall_app. split; [exact Hok|].
    apply Forall_fmap. eapply Forall_impl; [exact Hevs|].
    intros ev Hev n v Heq. simpl in Heq. by destruct (Hev "epoch" n v).
Qed.

Lemma checkpoint_step_logged (self : Trainer.t) (e : Z) (st : State) :
  logged is_main_process st 0 (Trainer.checkpoint_step is_main_process self e st).
Proof.
  unfold Trainer.checkpoint_step, Trainer.save_on_master.
  destruct is_main_process, (Trainer.distributed (Trainer.args self)).
  - eapply (logged_trans _ _ _ _ 0 0); [|eapply (logged_trans _ _ _ _ 0 0)];
      apply emit_logged; by repeat constructor.
  - apply emit_logged; by repeat constructor.
  - eapply (logged_trans _ _ _ _ 0 0); apply emit_logged; by repeat constructor.
  - apply logged_refl.
Qed.

Lemma train_epoch_logged (self : Trainer.t) (st st' : State) (e : Z) :
  train_epoch self st e = Ok st' →
  logged is_main_process st (length (train_dataloader e)) st'.
Proof.
  unfold Trainer.train_epoch.
  destruct (decide (Trainer.val_interval (Trainer.args self) = 0%Z));
    [discriminate|].
  set (st1 := Trainer.emit e [Trainer.NetworkTrain] st).
  set (st2 := foldl (train_batch e) st1 (train_dataloader e)).
  assert (logged is_main_process st (length (train_dataloader e)) st2) as H2.
  { apply (logged_trans _ _ st1 _ 0 _).
    - apply emit_logged. by repeat constructor.
    - apply train_batches_logged. }
  destruct (decide _) as [Hck|Hck].
  - set (st3 := Trainer.checkpoint_step is_main_process self e st2).
    assert (logged is_main_process st (length (train_dataloader e)) st3) as H3.
    { replace (length (train_dataloader e))
        with (length (train_dataloader e) + 0) by lia.
      eapply logged_trans; [exact H2|apply checkpoint_step_logged]. }
    destruct (scheduler_step _ _) as [scheduler' optimizer'].
    intros [= <-]. exact H3.
  - destruct (scheduler_step _ _) as [scheduler' optimizer'].
    intros [= <-]. exact H2.
Qed.

Lemma train_loop_logged (self : Trainer.t) (es : list Z) (st st' : State) :
  for_loop (train_epoch self) st es = Ok st' →
  logged is_main_process st (sum_list ((λ e, length (train_dataloader e)) <$> es)) st'.
Proof.
  revert st. induction es as [|e es IH]; intros st; simpl.
  - intros [= <-]. apply logged_refl.
  - destruct (train_epoch self st e) as [st1|] eqn:Hepoch; [|discriminate].
    simpl. intros Hrest.
    eapply logged_trans; [exact (train_epoch_logged self st st1 e Hepoch)|].
    by apply IH.
Qed.

(** A run is the epoch loop started from a state with an empty trace and
    the step counter of the trainer. *)
Lemma train_unfold (self : Trainer.t) (start : Z) :
  starts_at self files start →
  ∃ st0 : State,
    train self =
      for_loop (train_epoch self) st0
        (range start (Trainer.epochs (Trainer.args self))) ∧
    Trainer.trace st0 = [] ∧
    Trainer.step_counter st0 = Trainer.train_step self.
Proof.
  intros [[Hres ->]|(Hres & ck & Hfile & m & o & s & Hm & Ho & Hs & He)].
  - unfold Trainer.train, Trainer.setup. rewrite Hres. simpl.
    destruct (CosineAnnealingWarmRestarts _) as [scheduler optimizer].
    eexists. split; [reflexivity|]. done.
  - eexists. split; [|split].
    + apply (train_resumed is_main_process files TransformerNetwork AdamW
               CosineAnnealingWarmRestarts training_step scheduler_step lr
               train_dataloader self ck m o s start Hres Hfile Hm Ho Hs He).
    + reflexivity.
    + reflexivity.
Qed.

(** One loss, one epoch and one learning-rate scalar per consumed batch.
    In a run (with a non-zero [val_interval]) the step counter ends at
    its initial value plus the number of batches of all epochs of the
    run; the main process has logged, for each batch in turn, the
    scalars loss_ce, epoch and lr under the counter value of that batch
    (consecutive global steps, starting at the trainer's [train_step]),
    and every epoch scalar holds the epoch that logged it; a process
    that is not the main one has logged nothing. *)
Theorem train_logs_per_batch (self : Trainer.t) (start : Z) :
  Trainer.val_interval (Trainer.args self) ≠ 0%Z →
  starts_at self files start →
  ∃ st,
    train self = Ok st ∧
    let batches :=
      sum_list ((λ e, length (train_dataloader e)) <$>
                range start (Trainer.epochs (Trainer.args self))) in
    Trainer.step_counter st = Trainer.train_step self + batches ∧
    scalars_logged (Trainer.trace st) =
      (if is_main_process
       then concat (batch_scalars <$> seq (Trainer.train_step self) batches)
       else []) ∧
    Forall epoch_scalar_ok (Trainer.trace st).
Proof.
  intros Hvi Hstart.
  destruct (train_run is_main_process files TransformerNetwork AdamW
              CosineAnnealingWarmRestarts training_step scheduler_step lr
              train_dataloader self start Hvi Hstart) as (st & Hst & _).
  destruct (train_unfold self start Hstart) as (st0 & Hrun & Htr0 & Hc0).
  exists st. split; [exact Hst|].
  rewrite Hrun in Hst.
  destruct (train_loop_logged self _ st0 st Hst) as (Hc & Hs & He).
  rewrite Htr0, Hc0 in *. simpl in Hs.
  split_and!; [exact Hc | exact Hs | by apply He].
Qed.

(** How a run fails.  Resuming from a file that is not there raises
    FileNotFoundError and resuming from a bundle that lacks one of the
    four entries of a checkpoint raises KeyError, both before anything
    is trained; a
    zero [val_interval] raises ZeroDivisionError as soon as one epoch
    has been trained.  A run whose first epoch is not below
    [args["epochs"]] trains nothing and returns, whatever
    [val_interval]. *)
Theorem train_failures (self : Trainer.t) :
  (Trainer.resume (Trainer.args self) = true →
   files !! Trainer.resume_from_checkpoint (Trainer.args self) = None →
   train self = Raise FileNotFoundError) ∧
  (∀ ck full E k,
     Trainer.resume (Trainer.args self) = true →
     files !! Trainer.resume_from_checkpoint (Trainer.args self) = Some ck →
     resumable full E → ck ⊆ full →
     k ∈ checkpoint_keys → ck !! k = None →
     train self = Raise KeyError) ∧
  (∀ start,
     starts_at self files start →
     Trainer.val_interval (Trainer.args self) = 0%Z →
     (start < Trainer.epochs (Trainer.args self))%Z →
     train self = Raise ZeroDivisionError) ∧
  (∀ start,
     starts_at self files start →
     (Trainer.epochs (Trainer.args self) ≤ start)%Z →
     ∃ st, train self = Ok st ∧ Trainer.trace st = [] ∧
           Trainer.step_counter st = Trainer.train_step self).
Proof.
  split_and!.
  - intros Hres Hfile. unfold Trainer.train. by rewrite Hres, Hfile.
  - intros ck full E k Hres Hfile (m & o & s & Hm & Ho & Hs & He) Hsub Hk Hnone.
    unfold Trainer.train. rewrite Hres, Hfile. simpl.
    unfold Trainer.setup.
    destruct (CosineAnnealingWarmRestarts _) as [scheduler optimizer].
    unfold Trainer.load_checkpoint, Trainer.checkpoint_model,
      Trainer.checkpoint_optimizer, Trainer.checkpoint_scheduler,
      Trainer.epoch_start, Trainer.checkpoint_epoch.
    destruct (ck !! "model_state_dict") as [v|] eqn:Hm'; [|reflexivity].
    rewrite (lookup_weaken _ _ _ _ Hm' Hsub) in Hm. injection Hm as ->.
    destruct (ck !! "optimizer_state_dict") as [v|] eqn:Ho'; [|reflexivity].
    rewrite (lookup_weaken _ _ _ _ Ho' Hsub) in Ho. injection Ho as ->.
    destruct (ck !! "scheduler_state_dict") as [v|] eqn:Hs'; [|reflexivity].
    rewrite (lookup_weaken _ _ _ _ Hs' Hsub) in Hs. injection Hs as ->.
    destruct (ck !! "epoch") as [v|] eqn:He'; [|reflexivity].
    unfold checkpoint_keys in Hk.
    rewrite !elem_of_union, !elem_of_singleton in Hk.
    destruct Hk as [[[->| ->]| ->]| ->]; congruence.
  - intros start Hstart Hvi Hlt.
    destruct (train_unfold self start Hstart) as (st0 & -> & _).
    unfold range. rewrite seqZ_cons by lia. simpl.
    unfold Trainer.train_epoch. by rewrite decide_True by exact Hvi.
  - intros start Hstart Hle.
    destruct (train_unfold self start Hstart) as (st0 & -> & Htr0 & Hc0).
    unfold range. rewrite seqZ_nil by lia. by exists st0.
Qed.

(** A run never overwrites a checkpoint it has written: the files the
    main process writes during one run are pairwise distinct. *)
Theorem train_checkpoint_files_distinct (self : Trainer.t) (start : Z) :
  Trainer.val_interval (Trainer.args self) ≠ 0%Z →
  starts_at self files start →
  ∃ st, train self = Ok st ∧ NoDup (Trainer.saves (Trainer.trace st)).*2.*2.
Proof.
  intros Hvi Hstart.
  destruct (train_run is_main_process files TransformerNetwork AdamW
              CosineAnnealingWarmRestarts training_step scheduler_step lr
              train_dataloader self start Hvi Hstart) as (st & Hst & Hshape).
  exists st. split; [exact Hst|].
  destruct (trace_shape_saves _ _ _ _ Hshape) as [Hepochs Hgood].
  assert ((Trainer.saves (Trainer.trace st)).*2.*2 =
          checkpoint_filename self <$> (Trainer.saves (Trainer.trace st)).*1)
    as ->.
  { clear Hepochs. induction Hgood as [|[e [ck f]] l (_ & _ & Hf) _ IH]; [done|].
    simpl in *. rewrite Hf. f_equal. exact IH. }
  apply NoDup_fmap_2; [intros e e'; apply checkpoint_filename_inj|].
  rewrite Hepochs. destruct is_main_process; [|constructor].
  apply NoDup_filter. unfold range. apply NoDup_seqZ.
Qed.

Lemma train_barrier_facts (self : Trainer.t) (start : Z) :
  Trainer.val_interval (Trainer.args self) ≠ 0%Z →
  starts_at self files start →
  ∃ st,
    train self = Ok st ∧
    barriers (Trainer.trace st) =
      concat (epoch_barriers self <$>
              range start (Trainer.epochs (Trainer.args self))) ∧
    (is_main_process = false →
     Forall (λ x, Trainer.is_write x = false) (Trainer.trace st)) ∧
    StronglySorted write_after_barrier_is_later (Trainer.trace st).
Proof.
  intros Hvi Hstart.
  destruct (train_run is_main_process files TransformerNetwork AdamW
              CosineAnnealingWarmRestarts training_step scheduler_step lr
              train_dataloader self start Hvi Hstart) as (st & Hst & Hshape).
  exists st. split; [exact Hst|].
  destruct (trace_shape_barriers self is_main_process _ _ Hshape
              (range_sorted _ _)) as (Hb & _ & Hs & Hw).
  done.
Qed.

(** Where a run synchronises.  The barrier calls of a run are, in order,
    the two barriers of each epoch [e] of the run with
    [(e + 1) % val_interval == 0] when the run is distributed, and
    there is no other: the end of any other epoch is not synchronised.
    A process that is not the main one logs no scalar and writes no
    checkpoint.  And within the run no scalar or checkpoint write of an
    epoch comes after a barrier of that epoch or of a later one. *)
Theorem train_barriers (self : Trainer.t) (start : Z) :
  Trainer.val_interval (Trainer.args self) ≠ 0%Z →
  starts_at self files start →
  ∃ st,
    train self = Ok st ∧
    barriers (Trainer.trace st) =
      concat (epoch_barriers self <$>
              range start (Trainer.epochs (Trainer.args self))) ∧
    (Trainer.distributed (Trainer.args self) = false →
     barriers (Trainer.trace st) = []) ∧
    (is_main_process = false →
     Forall (λ x, Trainer.is_write x = false) (Trainer.trace st)) ∧
    StronglySorted write_after_barrier_is_later (Trainer.trace st).
Proof.
  intros Hvi Hstart.
  destruct (train_barrier_facts self start Hvi Hstart)
    as (st & Hst & Hb & Hw & Hs).
  exists st. split_and!; try done.
  intros Hdist. rewrite Hb. clear Hb. unfold epoch_barriers. rewrite Hdist.
  induction (range start (Trainer.epochs (Trainer.args self))) as [|e es IH];
    [done|exact IH].
Qed.

End TrainerLogging.

(** ** A group of processes running train *)

Section Distributed.

Context {Network Optimizer Scheduler : Type}.
Context {NetworkState OptimizerState SchedulerState : Type}.
Context {Batch Float : Type}.
Context `{!Trainer.Stateful Network NetworkState}.
Context `{!Trainer.Stateful Optimizer OptimizerState}.
Context `{!Trainer.Stateful Scheduler SchedulerState}.

Variable files :
  gmap string
    (gmap string (@Trainer.CheckpointValue NetworkState OptimizerState SchedulerState)).
Variable TransformerNetwork : Network.
Variable AdamW : Network → Optimizer.
Variable CosineAnnealingWarmRestarts : Optimizer → Scheduler * Optimizer.
Variable training_step : Network → Optimizer → Batch → Network * Optimizer * Float.
Variable scheduler_step : Scheduler → Optimizer → Scheduler * Optimizer.
Variable lr : Optimizer → Float.

(** The program of a process: the trace of its run of [train], given
    whether it is the main process and what its dataloader yields. *)
Local Abbreviation program self p :=
  (program_of
     (Trainer.train p.1 files TransformerNetwork AdamW
        CosineAnnealingWarmRestarts training_step scheduler_step lr p.2 self)).

Lemma program_barrier_facts (self : Trainer.t) (start : Z)
    (p : bool * (Z → list Batch)) :
  Trainer.val_interval (Trainer.args self) ≠ 0%Z →
  starts_at self files start →
  barriers (program self p) =
    concat (epoch_barriers self <$>
            range start (Trainer.epochs (Trainer.args self))) ∧
  (p.1 = false →
   Forall (λ x, Trainer.is_write x = false) (program self p)) ∧
  StronglySorted write_after_barrier_is_later (program self p).
Proof.
  intros Hvi Hstart. destruct p as [m dl].
  destruct (train_barrier_facts m files TransformerNetwork AdamW
              CosineAnnealingWarmRestarts training_step scheduler_step lr dl
              self start Hvi Hstart) as (st & Hst & Hb & Hw & Hs).
  simpl. rewrite Hst. simpl. done.
Qed.

(** In a group of processes that run [train] with the same arguments
    (each with its own rank and its own batches), whenever some process
    has left a barrier of epoch [e], a main process has already logged
    every scalar and written every checkpoint of its epochs up to [e]:
    the other processes leave the barrier only after the main process
    has finished its writes for that epoch. *)
Theorem barrier_waits_for_main (self : Trainer.t) (start : Z)
    (procs : list (bool * (Z → list Batch)))
    (group : list Process) (j : nat) (dataloader : Z → list Batch) :
  Trainer.val_interval (Trainer.args self) ≠ 0%Z →
  starts_at self files start →
  reachable ((λ p, program self p) <$> procs) group →
  procs !! j = Some (true, dataloader) →
  barrier_waits_for (program self (true, dataloader)) group j.
Proof.
  intros Hvi Hstart Hreach Hj.
  apply (reachable_barrier_waits _ _ _ _
           (concat (epoch_barriers self <$>
                    range start (Trainer.epochs (Trainer.args self))))
           Hreach).
  - apply Forall_fmap, Forall_forall. intros p _.
    apply (program_barrier_facts self start p Hvi Hstart).
  - by rewrite list_lookup_fmap, Hj.
  - apply (program_barrier_facts self start (true, dataloader) Hvi Hstart).
Qed.

(** C4 (amended). In a distributed run the processes synchronise at the
    epoch boundaries at which a checkpoint is due, and only there: the
    barriers of every process are, in order, the two barriers of each
    epoch [e] of the run with [(e + 1) % val_interval == 0].  A process
    that is not the main one logs no scalar and writes no checkpoint.
    And in a group of processes running [train] with the same
    arguments, whenever some process has left a barrier of epoch [e],
    the main process has finished its logging and its checkpoint writes
    for the epochs up to [e]. *)
Theorem train_synchronises (self : Trainer.t) (start : Z)
    (procs : list (bool * (Z → list Batch))) (group : list Process) :
  Trainer.distributed (Trainer.args self) = true →
  Trainer.val_interval (Trainer.args self) ≠ 0%Z →
  starts_at self files start →
  reachable ((λ p, program self p) <$> procs) group →
  (∀ p, p ∈ procs →
     barriers (program self p) =
       concat ((λ e, if decide (checkpoint_epoch self e)
                     then [(e, Trainer.end_of_epoch); (e, Trainer.end_of_val)]
                     else []) <$>
               range start (Trainer.epochs (Trainer.args self)))) ∧
  (∀ p, p ∈ procs → p.1 = false →
     Forall (λ x, Trainer.is_write x = false) (program self p)) ∧
  (∀ j dataloader, procs !! j = Some (true, dataloader) →
     barrier_waits_for (program self (true, dataloader)) group j).
Proof.
  intros Hdist Hvi Hstart Hreach.
  assert (epoch_barriers self =
          λ e, if decide (checkpoint_epoch self e)
               then [(e, Trainer.end_of_epoch); (e, Trainer.end_of_val)]
               else []) as Hsync.
  { unfold epoch_barriers. by rewrite Hdist. }
  split_and!.
  - intros p _. rewrite <- Hsync.
    apply (program_barrier_facts self start p Hvi Hstart).
  - intros p _ Hp.
    by apply (program_barrier_facts self start p Hvi Hstart).
  - intros j dataloader Hj.
    apply (reachable_barrier_waits _ _ _ _
             (concat (epoch_barriers self <$>
                      range start (Trainer.epochs (Trainer.args self))))
             Hreach).
    + apply Forall_fmap, Forall_forall. intros p _.
      apply (program_barrier_facts self start p Hvi Hstart).
    + by rewrite list_lookup_fmap, Hj.
    + apply (program_barrier_facts self start (true, dataloader) Hvi Hstart).
Qed.

End Distributed.

(** ** The sample runs again *)

Lemma sample_fresh_starts_at_0 : starts_at (sample_trainer false) sample_files 0.
Proof. left. split; reflexivity. Qed.

Example sample_train_scalars :
  ∃ st, sample_train true false = Ok st ∧
        Trainer.step_counter st = 8 ∧
        scalars_logged (Trainer.trace st) =
          concat (batch_scalars <$> [0; 1; 2; 3; 4; 5; 6; 7]) ∧
        barriers (Trainer.trace st) =
          [(1%Z, Trainer.end_of_epoch); (1%Z, Trainer.end_of_val);
           (3%Z, Trainer.end_of_epoch); (3%Z, Trainer.end_of_val)].
Proof. eexists. split; [vm_compute; reflexivity|]. vm_compute. repeat split. Qed.

Lemma train_logs_per_batch_witness :
  ∃ st,
    sample_train true false = Ok st ∧
    let batches :=
      sum_list ((λ e : Z, length ((λ _ : Z, [1; 2]) e)) <$>
                range 0 (Trainer.epochs (Trainer.args (sample_trainer false)))) in
    Trainer.step_counter st = Trainer.train_step (sample_trainer false) + batches ∧
    scalars_logged (Trainer.trace st) =
      (if true
       then concat (batch_scalars <$>
                    seq (Trainer.train_step (sample_trainer false)) batches)
       else []) ∧
    Forall epoch_scalar_ok (Trainer.trace st).
Proof.
  unfold sample_train.
  apply (train_logs_per_batch (Batch := nat) true sample_files
           0 (λ network, 0) (λ optimizer, (0, optimizer))
           (λ network optimizer item, (network + item, optimizer + 1, item))
           (λ scheduler optimizer, (scheduler + 1, optimizer))
           (λ optimizer, optimizer)
           (λ e, [1; 2])
           (sample_trainer false) 0).
  - vm_compute. discriminate.
  - exact sample_fresh_starts_at_0.
Defined.

Lemma train_checkpoint_files_distinct_witness :
  ∃ st, sample_train true false = Ok st ∧
        NoDup (Trainer.saves (Trainer.trace st)).*2.*2.
Proof.
  unfold sample_train.
  apply (train_checkpoint_files_distinct (Batch := nat) true sample_files
           0 (λ network, 0) (λ optimizer, (0, optimizer))
           (λ network optimizer item, (network + item, optimizer + 1, item))
           (λ scheduler optimizer, (scheduler + 1, optimizer))
           (λ optimizer, optimizer)
           (λ e, [1; 2])
           (sample_trainer false) 0).
  - vm_compute. discriminate.
  - exact sample_fresh_starts_at_0.
Defined.

Lemma train_barriers_witness :
  ∃ st,
    sample_train false false = Ok st ∧
    barriers (Trainer.trace st) =
      concat (epoch_barriers (sample_trainer false) <$>
              range 0 (Trainer.epochs (Trainer.args (sample_trainer false)))) ∧
    (Trainer.distributed (Trainer.args (sample_trainer false)) = false →
     barriers (Trainer.trace st) = []) ∧
    (false = false →
     Forall (λ x, Trainer.is_write x = false) (Trainer.trace st)) ∧
    StronglySorted write_after_barrier_is_later (Trainer.trace st).
Proof.
  unfold sample_train.
  apply (train_barriers (Batch := nat) false sample_files
           0 (λ network, 0) (λ optimizer, (0, optimizer))
           (λ network optimizer item, (network + item, optimizer + 1, item))
           (λ scheduler optimizer, (scheduler + 1, optimizer))
           (λ optimizer, optimizer)
           (λ e, [1; 2])
           (sample_trainer false) 0).
  - vm_compute. discriminate.
  - exact sample_fresh_starts_at_0.
Defined.

Lemma train_failures_witness :
  Trainer.train (Batch := nat) true
    (∅ : gmap string (gmap string (@Trainer.CheckpointValue nat nat nat)))
    0 (λ network, 0) (λ optimizer, (0, optimizer))
    (λ network optimizer item, (network + item, optimizer + 1, item))
    (λ scheduler optimizer, (scheduler + 1, optimizer))
    (λ optimizer, optimizer)
    (λ e, [1; 2])
    (sample_trainer true) = Raise FileNotFoundError ∧
  Trainer.train (Batch := nat) true
    (<["logs/1699990000/1-checkpoint.pth" :=
         delete "epoch" sample_checkpoint]> ∅)
    0 (λ network, 0) (λ optimizer, (0, optimizer))
    (λ network optimizer item, (network + item, optimizer + 1, item))
    (λ scheduler optimizer, (scheduler + 1, optimizer))
    (λ optimizer, optimizer)
    (λ e, [1; 2])
    (sample_trainer true) = Raise KeyError ∧
  Trainer.train (Batch := nat) true sample_files
    0 (λ network, 0) (λ optimizer, (0, optimizer))
    (λ network optimizer item, (network + item, optimizer + 1, item))
    (λ scheduler optimizer, (scheduler + 1, optimizer))
    (λ optimizer, optimizer)
    (λ e, [1; 2])
    (Trainer.__init__
       {| Trainer.distributed := true; Trainer.resume := false;
          Trainer.resume_from_checkpoint := "";
          Trainer.epochs := 4; Trainer.val_interval := 0;
          Trainer.log_dir := "logs" |} "1700000000.25")
    = Raise ZeroDivisionError.
Proof.
  split_and!.
  - apply (train_failures (Batch := nat) true
             (∅ : gmap string (gmap string (@Trainer.CheckpointValue nat nat nat)))
             0 (λ network, 0) (λ optimizer, (0, optimizer))
             (λ network optimizer item, (network + item, optimizer + 1, item))
             (λ scheduler optimizer, (scheduler + 1, optimizer))
             (λ optimizer, optimizer)
             (λ e, [1; 2])
             (sample_trainer true)); reflexivity.
  - apply (proj1 (proj2
             (train_failures (Batch := nat) true
                (<["logs/1699990000/1-checkpoint.pth" :=
                     delete "epoch" sample_checkpoint]> ∅)
                0 (λ network, 0) (λ optimizer, (0, optimizer))
                (λ network optimizer item, (network + item, optimizer + 1, item))
                (λ scheduler optimizer, (scheduler + 1, optimizer))
                (λ optimizer, optimizer)
                (λ e, [1; 2])
                (sample_trainer true)))
             (delete "epoch" sample_checkpoint) sample_checkpoint 1%Z "epoch").
    + reflexivity.
    + reflexivity.
    + by exists 3, 5, 7.
    + apply delete_subseteq.
    + unfold checkpoint_keys. set_solver.
    + apply lookup_delete_eq.
  - apply (proj1 (proj2 (proj2
             (train_failures (Batch := nat) true sample_files
                0 (λ network, 0) (λ optimizer, (0, optimizer))
                (λ network optimizer item, (network + item, optimizer + 1, item))
                (λ scheduler optimizer, (scheduler + 1, optimizer))
                (λ optimizer, optimizer)
                (λ e, [1; 2])
                (Trainer.__init__
                   {| Trainer.distributed := true; Trainer.resume := false;
                      Trainer.resume_from_checkpoint := "";
                      Trainer.epochs := 4; Trainer.val_interval := 0;
                      Trainer.log_dir := "logs" |} "1700000000.25"))))
             0%Z).
    + left. split; reflexivity.
    + reflexivity.
    + reflexivity.
Defined.

(** ** The small distributed run *)

Lemma local_step_ok {NetworkState OptimizerState SchedulerState Float : Type}
    (group : list (@Process NetworkState OptimizerState SchedulerState Float))
    (i : nat) (p : Process) (x : Z * Trainer.event)
    (rest : list (Z * Trainer.event)) :
  group !! i = Some p → todo p = x :: rest → Trainer.is_barrier x = false →
  group_step group (local_step i group).
Proof.
  intros Hp Htodo Hx. unfold local_step. rewrite Hp.
  by apply (step_local group i p x rest).
Qed.

Example small_group_state :
  done <$> small_group =
    [ [(0%Z, Trainer.NetworkTrain);
       (0%Z, Trainer.AddScalar "loss_ce" 0 (Trainer.FloatValue 1));
       (0%Z, Trainer.AddScalar "epoch" 0 (Trainer.IntValue 0));
       (0%Z, Trainer.AddScalar "lr" 0 (Trainer.FloatValue 1));
       (0%Z, Trainer.TorchSave
               (<["epoch" := Trainer.Int 0]>
                (<["scheduler_state_dict" := Trainer.SchedulerStateDict 0]>
                (<["optimizer_state_dict" := Trainer.OptimizerStateDict 1]>
                (<["model_state_dict" := Trainer.NetworkStateDict 1]> ∅))))
               "logs/1700000000/0-checkpoint.pth");
       (0%Z, Trainer.Barrier Trainer.end_of_epoch)];
      [(0%Z, Trainer.NetworkTrain);
       (0%Z, Trainer.Barrier Trainer.end_of_epoch)] ] ∧
  todo <$> small_group =
    [ [(0%Z, Trainer.Barrier Trainer.end_of_val)];
      [(0%Z, Trainer.Barrier Trainer.end_of_val)] ].
Proof. vm_compute. split; reflexivity. Qed.

Lemma small_group_reachable :
  reachable (small_program <$> small_procs) small_group.
Proof.
  unfold reachable, small_group.
  eapply rtc_r; [|apply step_barrier].
  - eapply rtc_r;
      [|eapply (local_step_ok _ 1);
        [vm_compute; reflexivity|vm_compute; reflexivity|reflexivity]].
    do 5 (eapply rtc_r;
          [|eapply (local_step_ok _ 0);
            [vm_compute; reflexivity|vm_compute; reflexivity|reflexivity]]).
    apply rtc_refl.
  - repeat constructor; eexists _, _; split; vm_compute; reflexivity.
Qed.

Lemma barrier_waits_for_main_witness :
  barrier_waits_for
    (program_of
       (Trainer.train (Batch := nat) (true, λ e : Z, [1]).1 sample_files
          0 (λ network, 0) (λ optimizer, (0, optimizer))
          (λ network optimizer item, (network + item, optimizer + 1, item))
          (λ scheduler optimizer, (scheduler + 1, optimizer))
          (λ optimizer, optimizer)
          (true, λ e : Z, [1]).2 small_trainer))
    small_group 0.
Proof.
  apply (barrier_waits_for_main (Batch := nat) sample_files
           0 (λ network, 0) (λ optimizer, (0, optimizer))
           (λ network optimizer item, (network + item, optimizer + 1, item))
           (λ scheduler optimizer, (scheduler + 1, optimizer))
           (λ optimizer, optimizer)
           small_trainer 0 small_procs small_group 0 (λ e, [1])).
  - vm_compute. discriminate.
  - left. split; reflexivity.
  - exact small_group_reachable.
  - reflexivity.
Defined.

Lemma train_synchronises_witness :
  (∀ p, p ∈ small_procs →
     barriers
       (program_of
          (Trainer.train (Batch := nat) p.1 sample_files
             0 (λ network, 0) (λ optimizer, (0, optimizer))
             (λ network optimizer item, (network + item, optimizer + 1, item))
             (λ scheduler optimizer, (scheduler + 1, optimizer))
             (λ optimizer, optimizer)
             p.2 small_trainer)) =
       concat ((λ e, if decide (checkpoint_epoch small_trainer e)
                     then [(e, Trainer.end_of_epoch); (e, Trainer.end_of_val)]
                     else []) <$>
               range 0 (Trainer.epochs (Trainer.args small_trainer)))) ∧
  (∀ p, p ∈ small_procs → p.1 = false →
     Forall (λ x, Trainer.is_write x = false)
       (program_of
          (Trainer.train (Batch := nat) p.1 sample_files
             0 (λ network, 0) (λ optimizer, (0, optimizer))
             (λ network optimizer item, (network + item, optimizer + 1, item))
             (λ scheduler optimizer, (scheduler + 1, optimizer))
             (λ optimizer, optimizer)
             p.2 small_trainer))) ∧
  (∀ j dataloader, small_procs !! j = Some (true, dataloader) →
     barrier_waits_for
       (program_of
          (Trainer.train (Batch := nat) (true, dataloader).1 sample_files
             0 (λ network, 0) (λ optimizer, (0, optimizer))
             (λ network optimizer item, (network + item, optimizer + 1, item))
             (λ scheduler optimizer, (scheduler + 1, optimizer))
             (λ optimizer, optimizer)
             (true, dataloader).2 small_trainer))
       small_group j).
Proof.
  apply (train_synchronises (Batch := nat) sample_files
           0 (λ network, 0) (λ optimizer, (0, optimizer))
           (λ network optimizer item, (network + item, optimizer + 1, item))
           (λ scheduler optimizer, (scheduler + 1, optimizer))
           (λ optimizer, optimizer)
           small_trainer 0 small_procs small_group).
  - reflexivity.
  - vm_compute. discriminate.
  - left. split; reflexivity.
  - exact small_group_reachable.
Defined.

(** C4 as stated fails: the sample run is distributed, has
    [val_interval] 2 and enters the epochs 0 to 3, and its barriers are
    those of the epochs 1 and 3; the epochs 0 and 2 end without one. *)
Lemma train_synchronises_counterexample :
  Trainer.distributed (Trainer.args (sample_trainer false)) = true ∧
  Trainer.epochs_entered (program_of (sample_train true false)) =
    [0; 1; 2; 3]%Z ∧
  barriers (program_of (sample_train true false)) =
    [(1%Z, Trainer.end_of_epoch); (1%Z, Trainer.end_of_val);
     (3%Z, Trainer.end_of_epoch); (3%Z, Trainer.end_of_val)] ∧
  ¬ barrier_at_every_epoch (program_of (sample_train true false)).
Proof.
  assert (Trainer.epochs_entered (program_of (sample_train true false)) =
          [0; 1; 2; 3]%Z) as Hentered by (vm_compute; reflexivity).
  assert (barriers (program_of (sample_train true false)) =
          [(1%Z, Trainer.end_of_epoch); (1%Z, Trainer.end_of_val);
           (3%Z, Trainer.end_of_epoch); (3%Z, Trainer.end_of_val)]) as Hbarriers
    by (vm_compute; reflexivity).
  split_and!; [reflexivity | exact Hentered | exact Hbarriers |].
  intros Hall. destruct (Hall 0%Z) as [point Hpoint].
  - rewrite Hentered. apply elem_of_cons. by left.
  - rewrite Hbarriers in Hpoint.
    repeat (apply elem_of_cons in Hpoint as [Hpoint|Hpoint]; [discriminate|]).
    by apply elem_of_nil in Hpoint.
Qed.

(** ** dict_to_device *)

Section DictToDeviceFacts.

Context {T Device : Type}.
Variable to : T → Device → T.

Local Abbreviation moved device :=
  (λ v : Value T, match v with
                  | Leaf t => Leaf (to t device)
                  | Nested d => Nested d
                  end).

Lemma dict_to_device_loop (m acc0 : gmap string (Value T)) (device : Device) :
  let run :=
    map_fold (λ k v acc,
                dict_obj ← acc;
                match v with
                | Leaf t => Ok (<[k := Leaf (to t device)]> dict_obj)
                | Nested _ => Raise AssertionError
                end) (Ok acc0) m in
  ((∀ k v, m !! k = Some v → ∃ t, v = Leaf t) →
   run = Ok ((moved device <$> m) ∪ acc0)) ∧
  ((∃ k d, m !! k = Some (Nested d)) → run = Raise AssertionError) ∧
  (∀ e, run = Raise e → e = AssertionError).
Proof.
  apply (map_fold_weak_ind (λ r m,
    ((∀ k v, m !! k = Some v → ∃ t, v = Leaf t) →
     r = Ok ((moved device <$> m) ∪ acc0)) ∧
    ((∃ k d, m !! k = Some (Nested d)) → r = Raise AssertionError) ∧
    (∀ e, r = Raise e → e = AssertionError))).
  - split_and!.
    + intros _. by rewrite fmap_empty, (left_id_L ∅ (∪)).
    + intros (k & d & Hk). by rewrite lookup_empty in Hk.
    + discriminate.
  - intros j x m' r Hfresh (IHok & IHbad & IHkind). split_and!.
    + intros Hall. rewrite IHok.
      * destruct (Hall j x) as [t ->]; [by rewrite lookup_insert_eq|].
        simpl. by rewrite fmap_insert, insert_union_l.
      * intros k v Hk. apply (Hall k).
        rewrite lookup_insert_ne; [exact Hk|]. intros ->. congruence.
    + intros (k & d & Hk). destruct (decide (j = k)) as [->|Hne].
      * rewrite lookup_insert_eq in Hk. injection Hk as ->.
        destruct r as [out|e]; simpl; [done|]. by rewrite (IHkind e).
      * rewrite lookup_insert_ne in Hk by exact Hne.
        rewrite IHbad by (by exists k, d). reflexivity.
    + intros e. destruct r as [out|e']; simpl.
      * destruct x; [discriminate|]. by intros [= <-].
      * intros [= <-]. by apply IHkind.
Qed.

(** [dict_to_device] moves every tensor of a dictionary of tensors and
    keeps its keys; on a dictionary that holds anything else than
    tensors it raises, and AssertionError is all it ever raises. *)
Theorem dict_to_device_outcome (dict_obj : gmap string (Value T))
    (device : Device) :
  ((∀ k v, dict_obj !! k = Some v → ∃ t, v = Leaf t) →
   dict_to_device to dict_obj device = Ok (moved device <$> dict_obj) ∧
   dom (moved device <$> dict_obj) = dom dict_obj) ∧
  ((∃ k d, dict_obj !! k = Some (Nested d)) →
   dict_to_device to dict_obj device = Raise AssertionError) ∧
  (∀ e, dict_to_device to dict_obj device = Raise e → e = AssertionError).
Proof.
  destruct (dict_to_device_loop dict_obj dict_obj device) as (Hok & Hbad & Hkind).
  split_and!; [|exact Hbad|exact Hkind].
  intros Hall. split; [|apply dom_fmap_L].
  unfold dict_to_device. rewrite (Hok Hall). f_equal.
  apply map_eq. intros k. rewrite lookup_union, lookup_fmap.
  by destruct (dict_obj !! k).
Qed.

End DictToDeviceFacts.

(** The observation of a sample item moves to the device; the whole item,
    which nests its observation, does not. *)
Lemma dict_to_device_outcome_witness :
  (dict_to_device (λ (t : nat) (device : string), t + 1)
     (<["image" := Leaf 10]> (<["natural_language_embedding" := Leaf 20]> ∅))
     "cuda"
   = Ok ((λ v : Value nat, match v with
                           | Leaf t => Leaf (t + 1)
                           | Nested d => Nested d
                           end) <$>
         (<["image" := Leaf 10]>
            (<["natural_language_embedding" := Leaf 20]> ∅))) ∧
   dom ((λ v : Value nat, match v with
                          | Leaf t => Leaf (t + 1)
                          | Nested d => Nested d
                          end) <$>
        (<["image" := Leaf 10]>
           (<["natural_language_embedding" := Leaf 20]>
              (∅ : gmap string (Value nat)))))
   = dom (<["image" := Leaf 10]>
            (<["natural_language_embedding" := Leaf 20]>
               (∅ : gmap string (Value nat))))) ∧
  dict_to_device (λ (t : nat) (device : string), t + 1)
    (<["observation" := Nested (<["image" := 10]> ∅)]> (<["is_first" := Leaf 0]> ∅))
    "cuda"
  = Raise AssertionError.
Proof.
  split.
  - apply (dict_to_device_outcome (λ (t : nat) (device : string), t + 1)
             (<["image" := Leaf 10]>
                (<["natural_language_embedding" := Leaf 20]> ∅)) "cuda").
    intros k v Hk.
    apply lookup_insert_Some in Hk as [[_ <-]|[_ Hk]]; [by eexists|].
    apply lookup_insert_Some in Hk as [[_ <-]|[_ Hk]]; [by eexists|].
    by rewrite lookup_empty in Hk.
  - apply (dict_to_device_outcome (λ (t : nat) (device : string), t + 1)
             (<["observation" := Nested (<["image" := 10]> ∅)]>
                (<["is_first" := Leaf 0]> ∅)) "cuda").
    exists "observation", (<["image" := 10]> ∅). reflexivity.
Defined.

(** ** make_log_dir: run identifiers *)



